(** * Pymodoro: the timer state machine and its controller

    A shallow embedding of [pymodoro/timer/states.py], [pymodoro/timer/core.py]
    and [pymodoro/timer/controller.py], with the small parts of
    [pymodoro/config] and [pymodoro/main.py] that decide which configurations
    the timer is run with.

    Python integers are unbounded, so every counter is a [Z].  The object
    attributes of [PomodoroTimer] form a record that is threaded through the
    methods; what a method makes observable to its collaborators (the Qt
    signals it emits, as their arguments are delivered, and the lines it
    hands to the logger itself) and the public commands that are entered are
    collected in a chronological trace.  What the slots connected to the
    signals write to the log is not part of the trace.  The only exception
    the state machine can raise is [ZeroDivisionError], in the break-kind
    computation. *)

From Stdlib Require Import ZArith List Bool Lia String Ascii.
Import ListNotations.
Local Open Scope Z_scope.

(** ** timer/states.py *)

Inductive TimerState : Type :=
| IDLE
| WORK
| SHORT_BREAK
| LONG_BREAK
| PAUSED.

Definition TimerState_eqb (a b : TimerState) : bool :=
  match a, b with
  | IDLE, IDLE | WORK, WORK | SHORT_BREAK, SHORT_BREAK
  | LONG_BREAK, LONG_BREAK | PAUSED, PAUSED => true
  | _, _ => false
  end.

(** [state in [WORK, SHORT_BREAK, LONG_BREAK]], the membership test that
    [pause], [pause_or_resume] and [is_running] all write out. *)
Definition counting_down (s : TimerState) : bool :=
  match s with
  | WORK | SHORT_BREAK | LONG_BREAK => true
  | IDLE | PAUSED => false
  end.

(** [state in [SHORT_BREAK, LONG_BREAK]]. *)
Definition is_break (s : TimerState) : bool :=
  match s with
  | SHORT_BREAK | LONG_BREAK => true
  | _ => false
  end.

(** [str(state)] of a plain [Enum] member, as an f-string renders it. *)
Definition TimerState_str (s : TimerState) : string :=
  match s with
  | IDLE => "TimerState.IDLE"
  | WORK => "TimerState.WORK"
  | SHORT_BREAK => "TimerState.SHORT_BREAK"
  | LONG_BREAK => "TimerState.LONG_BREAK"
  | PAUSED => "TimerState.PAUSED"
  end%string.

(** ** The configuration surface read by the timer (config/provider.py,
       [BaseConfig]) *)

Record Config : Type := mkConfig {
  work_duration_seconds : Z;
  short_break_duration_seconds : Z;
  long_break_duration_seconds : Z;
  sessions_until_long_break : Z
}.

(** ** Observable behaviour *)

(** The three [pyqtSignal]s of [PomodoroTimer], with the argument a slot
    receives. *)
Inductive Signal : Type :=
| state_changed (new_state : TimerState)
| time_changed (remaining : Z)
| session_completed (completed : TimerState).

(** The public commands of the core. *)
Inductive Command : Type :=
| CmdStartWorkSession
| CmdStartBreak
| CmdPause
| CmdResume
| CmdReset.

Inductive LogLevel : Type := DEBUG | INFO | WARNING.

(** One entry of the trace: a signal emission, the entry into a public
    command of the core, or a line handed to the logger. *)
Inductive Obs : Type :=
| Emit (sg : Signal)
| Enter (c : Command)
| Log (lvl : LogLevel) (msg : string).

Inductive Exn : Type := ZeroDivisionError.

Inductive Outcome (A : Type) : Type :=
| Returned (a : A)
| Raised (e : Exn).
Arguments Returned {A} a.
Arguments Raised {A} e.

(** ** The attributes of a [PomodoroTimer] object *)

Record PomodoroTimer : Type := mkTimer {
  current_state : TimerState;
  previous_state : TimerState;
  remaining_seconds : Z;
  current_session : Z;
  (** [self.qt_timer.isActive()]: the one-second [QTimer] is running *)
  qt_timer_active : bool
}.

(** [PomodoroTimer.__init__] *)
Definition init : PomodoroTimer :=
  {| current_state := IDLE;
     previous_state := IDLE;
     remaining_seconds := 0;
     current_session := 1;
     qt_timer_active := false |}.

(** ** A state, trace and exception monad for the methods

    A method takes the object and gives back its outcome, the object as it
    has been mutated (also when it raised), and what it made observable. *)

Record Ran (A : Type) : Type := mkRan {
  outcome : Outcome A;
  self_after : PomodoroTimer;
  trace : list Obs
}.
Arguments mkRan {A} _ _ _.
Arguments outcome {A} _.
Arguments self_after {A} _.
Arguments trace {A} _.

Definition M (A : Type) : Type := PomodoroTimer -> Ran A.

Definition ret {A : Type} (a : A) : M A :=
  fun self => mkRan (Returned a) self [].

Definition bind {A B : Type} (m : M A) (k : A -> M B) : M B :=
  fun self =>
    match m self with
    | mkRan (Returned a) self' tr =>
        match k a self' with
        | mkRan out self'' tr' => mkRan out self'' (tr ++ tr')
        end
    | mkRan (Raised e) self' tr => mkRan (Raised e) self' tr
    end.

Definition raise {A : Type} (e : Exn) : M A :=
  fun self => mkRan (Raised e) self [].

Definition get {A : Type} (field : PomodoroTimer -> A) : M A :=
  fun self => mkRan (Returned (field self)) self [].

Definition modify (f : PomodoroTimer -> PomodoroTimer) : M unit :=
  fun self => mkRan (Returned tt) (f self) [].

Definition observe (o : Obs) : M unit :=
  fun self => mkRan (Returned tt) self [o].

(** [time_changed] is declared [pyqtSignal(int)]: its argument reaches the
    slots as a C [int], the Python integer cut to 32 bits in two's
    complement.  Inside [-2^31, 2^31) that is the integer itself. *)
Definition to_c_int (v : Z) : Z :=
  (v + 2147483648) mod 4294967296 - 2147483648.

(** [state_changed] and [session_completed] are declared on [TimerState] and
    deliver the enum member as it is. *)
Definition deliver (sg : Signal) : Signal :=
  match sg with
  | time_changed v => time_changed (to_c_int v)
  | state_changed s => state_changed s
  | session_completed s => session_completed s
  end.

(** [signal.emit(argument)] *)
Definition emit (sg : Signal) : M unit := observe (Emit (deliver sg)).

Declare Scope py_scope.
Delimit Scope py_scope with py.
Notation "x <- m ;; k" := (bind m (fun x => k))
  (at level 61, m at next level, right associativity) : py_scope.
Notation "m ;; k" := (bind m (fun _ => k))
  (at level 61, right associativity) : py_scope.
Local Open Scope py_scope.

(** Attribute assignments. *)
Definition set_current_state (v : TimerState) : M unit :=
  modify (fun t => mkTimer v (previous_state t) (remaining_seconds t)
                           (current_session t) (qt_timer_active t)).
Definition set_previous_state (v : TimerState) : M unit :=
  modify (fun t => mkTimer (current_state t) v (remaining_seconds t)
                           (current_session t) (qt_timer_active t)).
Definition set_remaining_seconds (v : Z) : M unit :=
  modify (fun t => mkTimer (current_state t) (previous_state t) v
                           (current_session t) (qt_timer_active t)).
Definition set_current_session (v : Z) : M unit :=
  modify (fun t => mkTimer (current_state t) (previous_state t)
                           (remaining_seconds t) v (qt_timer_active t)).

(** [self.qt_timer.start()] and [self.qt_timer.stop()] *)
Definition qt_timer_start : M unit :=
  modify (fun t => mkTimer (current_state t) (previous_state t)
                           (remaining_seconds t) (current_session t) true).
Definition qt_timer_stop : M unit :=
  modify (fun t => mkTimer (current_state t) (previous_state t)
                           (remaining_seconds t) (current_session t) false).

(** Python's [a % b] on integers: floored, so it agrees with [Z.modulo]
    wherever it is defined, and raises on a zero divisor. *)
Definition py_mod (a b : Z) : M Z :=
  if b =? 0 then raise ZeroDivisionError else ret (a mod b).

(** ** timer/core.py *)

Module Core.

(** [_change_state]: the only place [current_state] is assigned. *)
Definition _change_state (new_state : TimerState) : M unit :=
  cur <- get current_state ;;
  if negb (TimerState_eqb new_state cur) then
    set_current_state new_state ;;
    emit (state_changed new_state)
  else ret tt.

Definition _start_timer : M unit :=
  qt_timer_start ;;
  r <- get remaining_seconds ;;
  emit (time_changed r).

Definition start_work_session (cfg : Config) : M unit :=
  observe (Enter CmdStartWorkSession) ;;
  cur <- get current_state ;;
  if negb (TimerState_eqb cur IDLE) then ret tt
  else
    _change_state WORK ;;
    set_remaining_seconds (work_duration_seconds cfg) ;;
    _start_timer.

(** [completed_sessions > 0 and completed_sessions % n == 0]: the right
    operand is evaluated only when the left one holds. *)
Definition is_long_break (cfg : Config) (completed_sessions : Z) : M bool :=
  if 0 <? completed_sessions then
    m <- py_mod completed_sessions (sessions_until_long_break cfg) ;;
    ret (m =? 0)
  else ret false.

Definition start_break (cfg : Config) : M unit :=
  observe (Enter CmdStartBreak) ;;
  cur <- get current_state ;;
  if negb (TimerState_eqb cur WORK) then ret tt
  else
    session <- get current_session ;;
    let completed_sessions := session - 1 in
    long <- is_long_break cfg completed_sessions ;;
    (if long : bool then
       _change_state LONG_BREAK ;;
       set_remaining_seconds (long_break_duration_seconds cfg)
     else
       _change_state SHORT_BREAK ;;
       set_remaining_seconds (short_break_duration_seconds cfg)) ;;
    _start_timer.

Definition pause : M unit :=
  observe (Enter CmdPause) ;;
  cur <- get current_state ;;
  if counting_down cur then
    qt_timer_stop ;;
    set_previous_state cur ;;
    _change_state PAUSED
  else ret tt.

Definition resume : M unit :=
  observe (Enter CmdResume) ;;
  cur <- get current_state ;;
  if TimerState_eqb cur PAUSED then
    prev <- get previous_state ;;
    _change_state prev ;;
    _start_timer
  else ret tt.

Definition reset : M unit :=
  observe (Enter CmdReset) ;;
  qt_timer_stop ;;
  _change_state IDLE ;;
  set_previous_state IDLE ;;
  set_remaining_seconds 0 ;;
  set_current_session 1.

Definition _timer_finished (cfg : Config) : M unit :=
  qt_timer_stop ;;
  cur <- get current_state ;;
  if TimerState_eqb cur WORK then
    session <- get current_session ;;
    set_current_session (session + 1) ;;
    emit (session_completed cur) ;;
    start_break cfg
  else if is_break cur then
    _change_state IDLE ;;
    emit (session_completed cur)
  else ret tt.

(** The slot connected to [qt_timer.timeout]. *)
Definition _tick (cfg : Config) : M unit :=
  r <- get remaining_seconds ;;
  set_remaining_seconds (r - 1) ;;
  r' <- get remaining_seconds ;;
  emit (time_changed r') ;;
  if r' <=? 0 then _timer_finished cfg else ret tt.

End Core.

(** ** [get_time_display]: integers as decimal strings *)

Module Display.

Definition digit_char (d : Z) : ascii := ascii_of_nat (48 + Z.to_nat d).

(** The decimal digits of a non-negative integer, most significant first.
    The digits are produced from the right; [fuel] bounds their number. *)
Fixpoint digits_aux (fuel : nat) (n : Z) (acc : string) : string :=
  match fuel with
  | O => acc
  | S fuel' =>
      let acc' := String (digit_char (n mod 10)) acc in
      if n <? 10 then acc' else digits_aux fuel' (n / 10) acc'
  end.

(** A non-negative [n] has at most [1 + log2 n] decimal digits. *)
Definition str_nonneg (n : Z) : string :=
  digits_aux (S (Z.to_nat (Z.log2 n))) n EmptyString.

Fixpoint zeros (k : nat) : string :=
  match k with
  | O => EmptyString
  | S k' => String "0"%char (zeros k')
  end.

(** [format(n, "02d")]: minimum width 2, zero fill between sign and digits. *)
Definition format_02d (n : Z) : string :=
  if n <? 0 then
    let s := str_nonneg (- n) in
    String "-"%char (zeros (1 - String.length s) ++ s)
  else
    let s := str_nonneg n in
    (zeros (2 - String.length s) ++ s)%string.

Definition get_time_display (self : PomodoroTimer) : string :=
  let minutes := remaining_seconds self / 60 in
  let seconds := remaining_seconds self mod 60 in
  (format_02d minutes ++ ":" ++ format_02d seconds)%string.

(** Reading a field back, as [int(field)] does for a string of decimal
    digits; [None] for the empty string or any other character. *)
Definition digit_value (c : ascii) : option Z :=
  let k := Z.of_nat (nat_of_ascii c) in
  if (48 <=? k) && (k <=? 57) then Some (k - 48) else None.

Fixpoint read_digits (s : string) (acc : Z) : option Z :=
  match s with
  | EmptyString => Some acc
  | String c s' =>
      match digit_value c with
      | Some d => read_digits s' (10 * acc + d)
      | None => None
      end
  end.

Definition int_of_field (s : string) : option Z :=
  match s with
  | EmptyString => None
  | _ => read_digits s 0
  end.

End Display.

(** ** timer/controller.py

    The controller keeps a reference to the one timer object of the
    application, so its methods act on that object; its [logger] calls are
    part of the trace. *)

Module Controller.

Definition log (lvl : LogLevel) (msg : string) : M unit := observe (Log lvl msg).

Definition start_or_resume (cfg : Config) : M unit :=
  state <- get current_state ;;
  if TimerState_eqb state IDLE then
    log DEBUG "Starting work session from controller" ;;
    Core.start_work_session cfg
  else if TimerState_eqb state PAUSED then
    log DEBUG "Resuming timer from controller" ;;
    Core.resume
  else
    log WARNING ("Cannot start/resume from state: " ++ TimerState_str state).

Definition pause_or_resume : M unit :=
  state <- get current_state ;;
  if counting_down state then
    log DEBUG "Pausing timer from controller" ;;
    Core.pause
  else if TimerState_eqb state PAUSED then
    log DEBUG "Resuming timer from controller" ;;
    Core.resume
  else
    log WARNING ("Cannot pause/resume from state: " ++ TimerState_str state).

Definition reset : M unit :=
  log DEBUG "Resetting timer from controller" ;;
  Core.reset.

End Controller.

(** ** gui/overlay.py: [BreakOverlay.extend_break], the one place outside
       the core that assigns a timer attribute *)

Definition extend_break : M unit :=
  let extension_seconds := 300 in
  r <- get remaining_seconds ;;
  set_remaining_seconds (r + extension_seconds) ;;
  observe (Log INFO "Break extended by 5 minutes") ;;
  r' <- get remaining_seconds ;;
  emit (time_changed r').

(** ** Where [sessions_until_long_break] comes from *)

Module ConfigSources.

(** config/models.py: [Field(default=4, ge=2, le=10)] *)
Definition sessions_default : Z := 4.
Definition sessions_field_ok (n : Z) : bool := (2 <=? n) && (n <=? 10).

(** [ConfigManager.load_config]: the stored value when the [PomodoroConfig]
    built from the file validates, the defaults when there is no file or a
    [ValueError]. *)
Definition loaded_sessions (stored : option Z) : Z :=
  match stored with
  | Some n => if sessions_field_ok n then n else sessions_default
  | None => sessions_default
  end.

(** main.py, test mode: the key is set only [if args.sessions_until_long_break],
    and [InMemoryConfig] falls back on the default of the model. *)
Definition test_mode_sessions (arg : option Z) : Z :=
  match arg with
  | Some n => if n =? 0 then sessions_default else n
  | None => sessions_default
  end.

(** gui/settings.py: [sessions_spin.setRange(2, 10)], then
    [config.sessions_until_long_break = sessions_spin.value()]. *)
Definition spin_sessions (entered : Z) : Z := Z.max 2 (Z.min 10 entered).

End ConfigSources.

(** A configuration the break-kind computation can divide by. *)
Definition config_ok (cfg : Config) : Prop := sessions_until_long_break cfg <> 0.

(** ** Runs of the application *)

(** What can happen to the timer object between two returns to the event
    loop: a collaborator calls a public command, the [QTimer] fires, a
    front-end goes through the controller, or the overlay extends a break. *)
Inductive Action : Type :=
| Call (c : Command)
| Tick
| StartOrResume
| PauseOrResume
| ControllerReset
| ExtendBreak.

Definition call (cfg : Config) (c : Command) : M unit :=
  match c with
  | CmdStartWorkSession => Core.start_work_session cfg
  | CmdStartBreak => Core.start_break cfg
  | CmdPause => Core.pause
  | CmdResume => Core.resume
  | CmdReset => Core.reset
  end.

(** A stopped [QTimer] delivers no timeout. *)
Definition perform (cfg : Config) (a : Action) : M unit :=
  match a with
  | Call c => call cfg c
  | Tick =>
      active <- get qt_timer_active ;;
      if active : bool then Core._tick cfg else ret tt
  | StartOrResume => Controller.start_or_resume cfg
  | PauseOrResume => Controller.pause_or_resume
  | ControllerReset => Controller.reset
  | ExtendBreak => extend_break
  end.

(** A run: the actions in order, each with the configuration in force when
    it happens (the settings dialog may change it in between). *)
Definition Run : Type := list (Config * Action).

Fixpoint exec_run (self : PomodoroTimer) (run : Run) : PomodoroTimer :=
  match run with
  | [] => self
  | (cfg, a) :: rest => exec_run (self_after (perform cfg a self)) rest
  end.

Fixpoint run_trace (self : PomodoroTimer) (run : Run) : list Obs :=
  match run with
  | [] => []
  | (cfg, a) :: rest =>
      let r := perform cfg a self in
      trace r ++ run_trace (self_after r) rest
  end.

Inductive reachable : PomodoroTimer -> Prop :=
| reachable_init : reachable init
| reachable_step (cfg : Config) (a : Action) (self : PomodoroTimer) :
    reachable self -> reachable (self_after (perform cfg a self)).

Definition is_reset (a : Action) : bool :=
  match a with
  | Call CmdReset | ControllerReset => true
  | _ => false
  end.

(** The action is a tick that exhausts the countdown of a WORK session. *)
Definition completes_work (self : PomodoroTimer) (a : Action) : bool :=
  match a with
  | Tick =>
      qt_timer_active self
      && TimerState_eqb (current_state self) WORK
      && (remaining_seconds self - 1 <=? 0)
  | _ => false
  end.

(** The number of WORK sessions completed by countdown exhaustion since the
    timer was created or last reset, [n] of them before [run]. *)
Fixpoint completed_work_sessions (self : PomodoroTimer) (n : Z) (run : Run) : Z :=
  match run with
  | [] => n
  | (cfg, a) :: rest =>
      completed_work_sessions (self_after (perform cfg a self))
        (if is_reset a then 0
         else if completes_work self a then n + 1 else n)
        rest
  end.

(** Projections of a trace. *)
Definition signals (tr : list Obs) : list Signal :=
  flat_map (fun o => match o with Emit sg => [sg] | _ => [] end) tr.

Definition entered (tr : list Obs) : list Command :=
  flat_map (fun o => match o with Enter c => [c] | _ => [] end) tr.

Definition Signal_eqb (a b : Signal) : bool :=
  match a, b with
  | state_changed x, state_changed y => TimerState_eqb x y
  | time_changed x, time_changed y => x =? y
  | session_completed x, session_completed y => TimerState_eqb x y
  | _, _ => false
  end.

Definition count_signal (sg : Signal) (tr : list Obs) : nat :=
  List.length (filter (Signal_eqb sg) (signals tr)).

(** The breaks started along a trace, in order. *)
Definition breaks_started (tr : list Obs) : list TimerState :=
  flat_map (fun sg => match sg with
                      | state_changed s => if is_break s then [s] else []
                      | _ => []
                      end) (signals tr).

(** The break kind that follows the [k]-th completed WORK session. *)
Definition break_kind (cfg : Config) (k : Z) : TimerState :=
  if (0 <? k) && (k mod sessions_until_long_break cfg =? 0)
  then LONG_BREAK else SHORT_BREAK.

Definition break_duration (cfg : Config) (b : TimerState) : Z :=
  match b with
  | LONG_BREAK => long_break_duration_seconds cfg
  | _ => short_break_duration_seconds cfg
  end.

(** ** Notions used by the statements *)

(** The last signal of a trace, if any. *)
Definition last_signal (tr : list Obs) : option Signal :=
  match rev (signals tr) with
  | [] => None
  | sg :: _ => Some sg
  end.

(** The reading of C3 that covers every command: whenever a command leaves
    [remaining_seconds] at a new value, the last signal it emits is
    [time_changed] with that value. *)
Definition announces_new_countdown (cfg : Config) (c : Command)
    (self : PomodoroTimer) : Prop :=
  let r := call cfg c self in
  remaining_seconds (self_after r) <> remaining_seconds self ->
  last_signal (trace r) = Some (time_changed (remaining_seconds (self_after r))).

(** The range of a C [int]. *)
Definition in_c_int (v : Z) : Prop := -2147483648 <= v <= 2147483647.

(** The same with the value as the signal delivers it. *)
Definition announces_delivered (cfg : Config) (c : Command)
    (self : PomodoroTimer) : Prop :=
  let r := call cfg c self in
  remaining_seconds (self_after r) <> remaining_seconds self ->
  last_signal (trace r)
  = Some (time_changed (to_c_int (remaining_seconds (self_after r)))).

(** While PAUSED, [previous_state] is the countdown that was suspended. *)
Definition paused_remembers (self : PomodoroTimer) : Prop :=
  current_state self = PAUSED -> counting_down (previous_state self) = true.

(** The count of completed WORK sessions after one more action. *)
Definition count_after (self : PomodoroTimer) (a : Action) (n : Z) : Z :=
  if is_reset a then 0 else if completes_work self a then n + 1 else n.

(** Eight WORK sessions of one second, each followed by its break. *)
Definition eight_sessions : Run :=
  let cfg := mkConfig 1 1 1 4 in
  let session := [(cfg, Call CmdStartWorkSession); (cfg, Tick); (cfg, Tick)] in
  List.concat (List.repeat session 8).

(** ** timer/controller.py: the query helpers *)

Module Queries.

(** [state in [...]] on a list of enum members. *)
Definition state_in (s : TimerState) (l : list TimerState) : bool :=
  existsb (TimerState_eqb s) l.

Definition get_start_button_state (self : PomodoroTimer) : bool * string :=
  let state := current_state self in
  if TimerState_eqb state IDLE then (true, "Start"%string)
  else if TimerState_eqb state PAUSED then (true, "Resume"%string)
  else (false, "Start"%string).

Definition get_pause_button_state (self : PomodoroTimer) : bool * string :=
  let state := current_state self in
  if state_in state [WORK; SHORT_BREAK; LONG_BREAK] then (true, "Pause"%string)
  else if TimerState_eqb state PAUSED then (true, "Resume"%string)
  else (false, "Pause"%string).

Definition can_start (self : PomodoroTimer) : bool :=
  state_in (current_state self) [IDLE; PAUSED].

Definition can_pause (self : PomodoroTimer) : bool :=
  state_in (current_state self) [WORK; SHORT_BREAK; LONG_BREAK; PAUSED].

Definition is_running (self : PomodoroTimer) : bool :=
  state_in (current_state self) [WORK; SHORT_BREAK; LONG_BREAK].

Definition is_break_active (self : PomodoroTimer) : bool :=
  state_in (current_state self) [SHORT_BREAK; LONG_BREAK].

End Queries.

(** ** gui/overlay.py: the skip button of the break overlay, as far as it
       acts on the timer; what the overlay and the other listeners write to
       the log, and the hiding of the widget, are left out *)

Module Overlay.

(** [skip_break]: [timer.reset()]. *)
Definition skip_break : M unit := Core.reset.

End Overlay.

(** ** app.py: the slots of [PyomodoroApp] that call the timer or play a
       sound at its signals *)

Module App.

(** audio/manager.py, [SoundEvent] *)
Inductive SoundEvent : Type :=
| WORK_START
| BREAK_START
| SESSION_COMPLETE
| TIMER_FINISH.

Definition _on_user_activity (cfg : Config) : M unit :=
  cur <- get current_state ;;
  if TimerState_eqb cur IDLE then
    observe (Log INFO "Auto-starting work session due to user activity") ;;
    Core.start_work_session cfg
  else ret tt.

(** The [audio_manager.play_sound] calls of [_on_timer_state_changed]. *)
Definition _on_timer_state_changed (state : TimerState) : list SoundEvent :=
  if TimerState_eqb state WORK then [WORK_START]
  else if Queries.state_in state [SHORT_BREAK; LONG_BREAK] then [BREAK_START]
  else [].

(** The [audio_manager.play_sound] calls of [_on_session_completed]. *)
Definition _on_session_completed (completed_state : TimerState) : list SoundEvent :=
  if TimerState_eqb completed_state WORK then [SESSION_COMPLETE]
  else if Queries.state_in completed_state [SHORT_BREAK; LONG_BREAK]
       then [TIMER_FINISH]
  else [].

(** The sounds requested while a trace is emitted: the two slots above are
    connected to [state_changed] and [session_completed], and run at each
    emission. *)
Definition sounds_requested (tr : list Obs) : list SoundEvent :=
  flat_map (fun sg => match sg with
                      | state_changed s => _on_timer_state_changed s
                      | session_completed s => _on_session_completed s
                      | time_changed _ => []
                      end) (signals tr).

End App.

(** ** gui/tray.py: the helpers of [SystemTray.update_icon] *)

Module Tray.



Definition get_total_seconds_for_state (cfg : Config) (state : TimerState) : Z :=
  if TimerState_eqb state WORK then work_duration_seconds cfg
  else if TimerState_eqb state SHORT_BREAK then short_break_duration_seconds cfg
  else if TimerState_eqb state LONG_BREAK then long_break_duration_seconds cfg
  else 0.

End Tray.

(** ** gui/main_window.py: the text of the time label *)

Module MainWindow.



End MainWindow.

(** ** config/models.py and config/provider.py *)

Module Models.

(** The four timing fields of [PomodoroConfig]. *)
Record PomodoroConfig : Type := mkPomodoroConfig {
  work_duration : Z;
  short_break_duration : Z;
  long_break_duration : Z;
  sessions : Z
}.

(** [PomodoroConfig()] *)
Definition defaults : PomodoroConfig := mkPomodoroConfig 25 5 15 4.

(** The [ge]/[le] bounds of the four [Field]s, checked at construction. *)
Definition validates (c : PomodoroConfig) : bool :=
  ((1 <=? work_duration c) && (work_duration c <=? 120))
  && ((1 <=? short_break_duration c) && (short_break_duration c <=? 60))
  && ((5 <=? long_break_duration c) && (long_break_duration c <=? 120))
  && ((2 <=? sessions c) && (sessions c <=? 10)).








End Models.

Module PersistentConfig.
Import Models.

(** What the timer reads through the [BaseConfig] properties. *)
Definition view (c : PomodoroConfig) : Config :=
  {| work_duration_seconds := work_duration c * 60;
     short_break_duration_seconds := short_break_duration c * 60;
     long_break_duration_seconds := long_break_duration c * 60;
     sessions_until_long_break := sessions c |}.

End PersistentConfig.

Module InMemoryConfig.

(** The attributes [_work_seconds], [_short_break_seconds],
    [_long_break_seconds] and [_sessions_until_long_break] are the four
    fields of a [Config]; the seconds properties return them as they are. *)

(** [__init__]: [test_values.get(key, default)] for each attribute. *)
Definition __init__ (work_seconds short_break_seconds long_break_seconds
                     sessions : option Z) : Config :=
  let base_config := Models.defaults in
  let get (v : option Z) (default : Z) :=
    match v with Some x => x | None => default end in
  {| work_duration_seconds :=
       get work_seconds (Models.work_duration base_config * 60);
     short_break_duration_seconds :=
       get short_break_seconds (Models.short_break_duration base_config * 60);
     long_break_duration_seconds :=
       get long_break_seconds (Models.long_break_duration base_config * 60);
     sessions_until_long_break := get sessions (Models.sessions base_config) |}.

(** The minutes properties and their setters. *)
Definition work_duration (c : Config) : Z :=
  Z.max 1 (work_duration_seconds c / 60).
Definition short_break_duration (c : Config) : Z :=
  Z.max 1 (short_break_duration_seconds c / 60).
Definition long_break_duration (c : Config) : Z :=
  Z.max 1 (long_break_duration_seconds c / 60).

Definition set_work_duration (value : Z) (c : Config) : Config :=
  mkConfig (value * 60) (short_break_duration_seconds c)
           (long_break_duration_seconds c) (sessions_until_long_break c).
Definition set_short_break_duration (value : Z) (c : Config) : Config :=
  mkConfig (work_duration_seconds c) (value * 60)
           (long_break_duration_seconds c) (sessions_until_long_break c).
Definition set_long_break_duration (value : Z) (c : Config) : Config :=
  mkConfig (work_duration_seconds c) (short_break_duration_seconds c)
           (value * 60) (sessions_until_long_break c).
Definition set_sessions_until_long_break (value : Z) (c : Config) : Config :=
  mkConfig (work_duration_seconds c) (short_break_duration_seconds c)
           (long_break_duration_seconds c) value.

End InMemoryConfig.

(** ** main.py: the configuration of test mode *)

Module Main.

(** The [test_config] dictionary handed to [InMemoryConfig]: the work
    duration is always set, the other keys only when their argument is
    truthy (a duration given on the command line, a non-zero count).  The
    durations are the results of [parse_duration]. *)
Definition test_config (work_seconds : Z)
    (short_break_seconds sessions long_break_seconds : option Z) : Config :=
  InMemoryConfig.__init__
    (Some work_seconds)
    short_break_seconds
    long_break_seconds
    (match sessions with
     | Some n => if n =? 0 then None else Some n
     | None => None
     end).

End Main.

(** ** gui/settings.py: the four spin boxes of the configuration dialog *)

Module Settings.

(** [QSpinBox.setValue] keeps the value inside the range of the box. *)
Definition spin (lo hi v : Z) : Z := Z.max lo (Z.min hi v).

(** [load_settings] on an in-memory configuration: the four spin boxes. *)
Definition load_settings (c : Config) : Z * Z * Z * Z :=
  (spin 1 120 (InMemoryConfig.work_duration c),
   spin 1 60 (InMemoryConfig.short_break_duration c),
   spin 5 120 (InMemoryConfig.long_break_duration c),
   spin 2 10 (sessions_until_long_break c)).

(** [save_and_accept] on an in-memory configuration. *)
Definition save_and_accept (boxes : Z * Z * Z * Z) (c : Config) : Config :=
  let '(w, s, l, n) := boxes in
  InMemoryConfig.set_sessions_until_long_break n
    (InMemoryConfig.set_long_break_duration l
       (InMemoryConfig.set_short_break_duration s
          (InMemoryConfig.set_work_duration w c))).

(** The same two steps on the persistent configuration, whose properties
    are the fields of the model. *)
Definition load_settings_persistent (c : Models.PomodoroConfig) : Z * Z * Z * Z :=
  (spin 1 120 (Models.work_duration c),
   spin 1 60 (Models.short_break_duration c),
   spin 5 120 (Models.long_break_duration c),
   spin 2 10 (Models.sessions c)).

Definition save_and_accept_persistent (boxes : Z * Z * Z * Z)
    : Models.PomodoroConfig :=
  let '(w, s, l, n) := boxes in Models.mkPomodoroConfig w s l n.

End Settings.

(** ** Notions used by the further statements *)

(** A configuration whose phases last at least a second and whose break-kind
    rule can divide. *)
Definition config_wf (cfg : Config) : Prop :=
  1 <= work_duration_seconds cfg /\
  1 <= short_break_duration_seconds cfg /\
  1 <= long_break_duration_seconds cfg /\
  sessions_until_long_break cfg <> 0.

(** A configuration whose durations fit the argument of [time_changed]. *)
Definition config_fits_c_int (cfg : Config) : Prop :=
  work_duration_seconds cfg <= 2147483647 /\
  short_break_duration_seconds cfg <= 2147483647 /\
  long_break_duration_seconds cfg <= 2147483647.

(** The values carried by the [time_changed] signals of a trace. *)
Definition time_values (tr : list Obs) : list Z :=
  flat_map (fun sg => match sg with time_changed v => [v] | _ => [] end)
           (signals tr).

(** The states carried by the [state_changed] signals of a trace. *)
Definition state_changes (tr : list Obs) : list TimerState :=
  flat_map (fun sg => match sg with state_changed s => [s] | _ => [] end)
           (signals tr).

(** The phases carried by the [session_completed] signals of a trace. *)
Definition completions (tr : list Obs) : list TimerState :=
  flat_map (fun sg => match sg with session_completed s => [s] | _ => [] end)
           (signals tr).

(** The action is a timeout that is delivered and exhausts the countdown of
    a phase. *)
Definition completes_phase (self : PomodoroTimer) (a : Action) : bool :=
  match a with
  | Tick =>
      qt_timer_active self
      && counting_down (current_state self)
      && (remaining_seconds self - 1 <=? 0)
  | _ => false
  end.

(** [n] timeouts in a row under one configuration. *)
Definition ticks (cfg : Config) (n : nat) : Run := List.repeat (cfg, Tick) n.

(** The [QTimer] runs only during a countdown, and PAUSED remembers one. *)
Definition timer_only_counting (self : PomodoroTimer) : Prop :=
  (qt_timer_active self = true -> counting_down (current_state self) = true) /\
  (current_state self = PAUSED -> counting_down (previous_state self) = true).

(** What holds of the object along runs under well-formed configurations. *)
Definition healthy (self : PomodoroTimer) : Prop :=
  0 <= remaining_seconds self /\
  (current_state self <> IDLE -> 1 <= remaining_seconds self) /\
  qt_timer_active self = counting_down (current_state self) /\
  (current_state self = PAUSED -> counting_down (previous_state self) = true).

(** gui/tray.py, [update_icon]: the [total_seconds] its branches pass to
    [get_progress], whose quotient has numerator
    [elapsed = total_seconds - remaining_seconds]; no progress is drawn in
    IDLE. *)
Definition icon_total (cfg : Config) (self : PomodoroTimer) : option Z :=
  match current_state self with
  | IDLE => None
  | WORK => Some (work_duration_seconds cfg)
  | SHORT_BREAK => Some (short_break_duration_seconds cfg)
  | LONG_BREAK => Some (long_break_duration_seconds cfg)
  | PAUSED => Some (Tray.get_total_seconds_for_state cfg (previous_state self))
  end.

(** The countdown is within the duration of its phase. *)
Definition within_total (cfg : Config) (self : PomodoroTimer) : Prop :=
  forall total : Z, icon_total cfg self = Some total ->
                    remaining_seconds self <= total.

Definition is_extend (a : Action) : bool :=
  match a with ExtendBreak => true | _ => false end.

(** * Verification *)

(** ** Evaluating methods *)

(** Unfolds the monad and the methods, leaving integer arithmetic alone. *)
Ltac py_unfold :=
  cbv beta iota zeta delta
    [perform call extend_break
     Core._change_state Core._start_timer Core.start_work_session
     Core.is_long_break Core.start_break Core.pause Core.resume Core.reset
     Core._timer_finished Core._tick
     Controller.log Controller.start_or_resume Controller.pause_or_resume
     Controller.reset
     py_mod bind ret raise get modify observe emit deliver
     set_current_state set_previous_state set_remaining_seconds
     set_current_session qt_timer_start qt_timer_stop
     outcome self_after trace
     current_state previous_state remaining_seconds current_session
     qt_timer_active
     TimerState_eqb counting_down is_break negb andb app].

(** Reads attributes off an explicit object. *)
Ltac fields :=
  cbv beta iota zeta delta
    [current_state previous_state remaining_seconds current_session
     qt_timer_active].

Lemma TimerState_eqb_eq (a b : TimerState) : TimerState_eqb a b = true <-> a = b.
Proof. destruct a, b; simpl; split; intro H; try reflexivity; discriminate H. Qed.

(** Inside the range of a C [int] the argument of a signal is delivered as
    it is. *)
Lemma to_c_int_in_range (v : Z) :
  -2147483648 <= v <= 2147483647 -> to_c_int v = v.
Proof.
  intros Hv. unfold to_c_int. rewrite Z.mod_small by lia. lia.
Qed.

Lemma to_c_int_range (v : Z) : -2147483648 <= to_c_int v <= 2147483647.
Proof.
  unfold to_c_int.
  pose proof (Z.mod_pos_bound (v + 2147483648) 4294967296 ltac:(lia)). lia.
Qed.

Lemma break_kind_is_break (cfg : Config) (k : Z) : is_break (break_kind cfg k) = true.
Proof. unfold break_kind. destruct (_ && _); reflexivity. Qed.

(** What [start_break] does from WORK under a usable configuration. *)
Lemma start_break_from_work (cfg : Config) (ps : TimerState) (r n : Z) (q : bool) :
  config_ok cfg ->
  Core.start_break cfg (mkTimer WORK ps r n q) =
  let b := break_kind cfg (n - 1) in
  mkRan (Returned tt) (mkTimer b ps (break_duration cfg b) n true)
    [Enter CmdStartBreak; Emit (state_changed b);
     Emit (time_changed (to_c_int (break_duration cfg b)))].
Proof.
  unfold config_ok, break_kind, break_duration. intros Hok.
  py_unfold.
  destruct (0 <? n - 1); [| reflexivity].
  apply Z.eqb_neq in Hok. rewrite Hok.
  destruct (_ mod _ =? 0); reflexivity.
Qed.

(** Without that condition the break-kind computation fails: with
    [sessions_until_long_break = 0] the tick that completes a WORK session
    raises after the completion has been announced, and no break starts. *)
Example tick_zero_sessions_raises :
  Core._tick (mkConfig 1500 300 900 0) (mkTimer WORK IDLE 1 1 true) =
  mkRan (Raised ZeroDivisionError) (mkTimer WORK IDLE 0 2 false)
    [Emit (time_changed 0); Emit (session_completed WORK); Enter CmdStartBreak].
Proof. reflexivity. Qed.

(** C2.  In every state (reachable or not) with [current_state = WORK] and
    [remaining_seconds = 1], under a configuration the break-kind rule can
    divide by, one tick returns normally; it sets [remaining_seconds] to 0 and
    emits [time_changed(0)], then runs [_timer_finished] on that state: it
    emits [session_completed(WORK)] exactly once, increments
    [current_session] by exactly 1, and enters [start_break], which moves to
    SHORT_BREAK or LONG_BREAK and restarts the countdown, all within the same
    call; [current_state] is never set to IDLE on the way (no
    [state_changed(IDLE)] is emitted, and [_change_state] is the only writer
    of [current_state]).  The [time_changed] that announces the break
    carries its duration as a C [int]: the duration itself when it lies
    between -2^31 and 2^31 - 1. *)
Theorem tick_exhausts_work (cfg : Config) (self : PomodoroTimer) :
  current_state self = WORK ->
  remaining_seconds self = 1 ->
  config_ok cfg ->
  let b := break_kind cfg (current_session self) in
  let at_zero := mkTimer WORK (previous_state self) 0 (current_session self)
                         (qt_timer_active self) in
  let r := Core._tick cfg self in
  outcome r = Returned tt /\
  trace r = Emit (time_changed 0) :: trace (Core._timer_finished cfg at_zero) /\
  trace r = [Emit (time_changed 0); Emit (session_completed WORK);
             Enter CmdStartBreak; Emit (state_changed b);
             Emit (time_changed (to_c_int (break_duration cfg b)))] /\
  (in_c_int (break_duration cfg b) ->
   time_values (trace r) = [0; break_duration cfg b]) /\
  count_signal (session_completed WORK) (trace r) = 1%nat /\
  count_signal (state_changed IDLE) (trace r) = 0%nat /\
  current_session (self_after r) = current_session self + 1 /\
  current_state (self_after r) = b /\
  is_break b = true /\
  remaining_seconds (self_after r) = break_duration cfg b /\
  qt_timer_active (self_after r) = true.
Proof.
  destruct self as [cs ps r n q]. fields. intros -> -> Hok.
  assert (Hb := break_kind_is_break cfg n).
  assert (Hfin : Core._timer_finished cfg (mkTimer WORK ps 0 n q) =
                 mkRan (Returned tt)
                   (mkTimer (break_kind cfg n) ps
                      (break_duration cfg (break_kind cfg n)) (n + 1) true)
                   [Emit (session_completed WORK); Enter CmdStartBreak;
                    Emit (state_changed (break_kind cfg n));
                    Emit (time_changed
                            (to_c_int (break_duration cfg (break_kind cfg n))))]).
  { unfold config_ok in Hok. apply Z.eqb_neq in Hok.
    unfold break_kind, break_duration. py_unfold.
    replace (n + 1 - 1) with n by lia.
    destruct (0 <? n); [| reflexivity].
    rewrite Hok. destruct (_ mod _ =? 0); reflexivity. }
  assert (Htick : Core._tick cfg (mkTimer WORK ps 1 n q) =
                  mkRan (Returned tt)
                    (mkTimer (break_kind cfg n) ps
                       (break_duration cfg (break_kind cfg n)) (n + 1) true)
                    (Emit (time_changed 0)
                     :: trace (Core._timer_finished cfg (mkTimer WORK ps 0 n q)))).
  { rewrite Hfin. clear Hfin.
    unfold config_ok in Hok. apply Z.eqb_neq in Hok.
    unfold break_kind, break_duration. py_unfold.
    change (1 - 1) with 0. change (0 <=? 0) with true. py_unfold.
    replace (n + 1 - 1) with n by lia.
    destruct (0 <? n); [| reflexivity].
    rewrite Hok. destruct (_ mod _ =? 0); reflexivity. }
  rewrite Htick, Hfin. cbn [outcome self_after trace].
  fields.
  split; [reflexivity |]. split; [reflexivity |]. split; [reflexivity |].
  split.
  { intros Hrange. unfold in_c_int in Hrange.
    unfold time_values, signals. cbn [flat_map app].
    rewrite (to_c_int_in_range _ Hrange). reflexivity. }
  split.
  { unfold count_signal, signals. cbn [flat_map app filter Signal_eqb].
    destruct (break_kind cfg n); reflexivity. }
  split.
  { unfold count_signal, signals. cbn [flat_map app filter Signal_eqb].
    destruct (break_kind cfg n); simpl in Hb; try discriminate Hb; reflexivity. }
  repeat split; assumption.
Qed.

(** The fourth WORK session of a default configuration ends in a long break
    of 900 seconds. *)
Lemma tick_exhausts_work_witness :
  let cfg := mkConfig 1500 300 900 4 in
  let self := mkTimer WORK IDLE 1 4 true in
  current_state (self_after (Core._tick cfg self)) = LONG_BREAK /\
  remaining_seconds (self_after (Core._tick cfg self)) = 900.
Proof.
  assert (Hok : config_ok (mkConfig 1500 300 900 4))
    by (unfold config_ok; simpl; lia).
  destruct (tick_exhausts_work (mkConfig 1500 300 900 4)
              (mkTimer WORK IDLE 1 4 true) eq_refl eq_refl Hok)
    as (_ & _ & _ & _ & _ & _ & _ & Hst & _ & Hrem & _).
  split; [exact Hst | exact Hrem].
Defined.

(** C7.  In every state with [current_state] SHORT_BREAK or LONG_BREAK and
    [remaining_seconds = 1], one tick returns normally, moves to IDLE and
    emits [session_completed] carrying that break state exactly once; it
    enters no public command and emits no [state_changed(WORK)], leaves
    [current_session] unchanged, and leaves the [QTimer] stopped, so that no
    further timeout reaches the core: nothing restarts WORK. *)
Theorem tick_exhausts_break (cfg : Config) (self : PomodoroTimer) :
  is_break (current_state self) = true ->
  remaining_seconds self = 1 ->
  let b := current_state self in
  let r := Core._tick cfg self in
  outcome r = Returned tt /\
  trace r = [Emit (time_changed 0); Emit (state_changed IDLE);
             Emit (session_completed b)] /\
  count_signal (session_completed b) (trace r) = 1%nat /\
  current_state (self_after r) = IDLE /\
  current_session (self_after r) = current_session self /\
  entered (trace r) = [] /\
  count_signal (state_changed WORK) (trace r) = 0%nat /\
  qt_timer_active (self_after r) = false /\
  (forall cfg' : Config,
     perform cfg' Tick (self_after r) = mkRan (Returned tt) (self_after r) []).
Proof.
  destruct self as [cs ps r n q]. fields. intros Hb ->.
  destruct cs; try discriminate Hb; repeat split.
Qed.

(** A short break with one second left. *)
Lemma tick_exhausts_break_witness :
  trace (Core._tick (mkConfig 1500 1 900 4) (mkTimer SHORT_BREAK IDLE 1 2 true))
  = [Emit (time_changed 0); Emit (state_changed IDLE);
     Emit (session_completed SHORT_BREAK)].
Proof.
  exact (proj1 (proj2 (tick_exhausts_break (mkConfig 1500 1 900 4)
                         (mkTimer SHORT_BREAK IDLE 1 2 true) eq_refl eq_refl))).
Defined.

(** C4.  From every state whose [current_state] is WORK, SHORT_BREAK or
    LONG_BREAK, [pause()] followed by [resume()] restores that
    [current_state]; [remaining_seconds] after the resume is the value at the
    time of the pause, and neither command changes [remaining_seconds] or
    [current_session]. *)
Theorem pause_resume_roundtrip (self : PomodoroTimer) :
  counting_down (current_state self) = true ->
  let p := Core.pause self in
  let r := (Core.pause ;; Core.resume) self in
  outcome p = Returned tt /\
  current_state (self_after p) = PAUSED /\
  remaining_seconds (self_after p) = remaining_seconds self /\
  current_session (self_after p) = current_session self /\
  self_after r = self_after (Core.resume (self_after p)) /\
  outcome r = Returned tt /\
  current_state (self_after r) = current_state self /\
  remaining_seconds (self_after r) = remaining_seconds (self_after p) /\
  current_session (self_after r) = current_session self /\
  qt_timer_active (self_after r) = true.
Proof.
  destruct self as [cs ps r n q]. fields. intros Hrun.
  destruct cs; try discriminate Hrun; repeat split.
Qed.

(** A long break paused and resumed at 42 seconds. *)
Lemma pause_resume_roundtrip_witness :
  let self := mkTimer LONG_BREAK IDLE 42 5 true in
  current_state (self_after ((Core.pause ;; Core.resume) self)) = LONG_BREAK.
Proof.
  destruct (pause_resume_roundtrip (mkTimer LONG_BREAK IDLE 42 5 true) eq_refl)
    as (_ & _ & _ & _ & _ & _ & H & _).
  exact H.
Defined.

(** C5.  From every state [reset()] returns normally with
    [current_state = IDLE], [previous_state = IDLE], [remaining_seconds = 0]
    and [current_session = 1]: the object is again the one [__init__] built. *)
Theorem reset_total (self : PomodoroTimer) :
  let r := Core.reset self in
  outcome r = Returned tt /\
  current_state (self_after r) = IDLE /\
  previous_state (self_after r) = IDLE /\
  remaining_seconds (self_after r) = 0 /\
  current_session (self_after r) = 1 /\
  self_after r = init.
Proof.
  destruct self as [cs ps r n q]. destruct cs; repeat split.
Qed.

(** C6.  In every state with [current_state] in WORK, SHORT_BREAK,
    LONG_BREAK or PAUSED, [start_work_session()] is a silent no-op: it returns
    normally, leaves [current_state], [previous_state], [remaining_seconds]
    and [current_session] (the whole object) as they were, and emits no
    signal. *)
Theorem start_work_session_noop (cfg : Config) (self : PomodoroTimer) :
  In (current_state self) [WORK; SHORT_BREAK; LONG_BREAK; PAUSED] ->
  let r := Core.start_work_session cfg self in
  outcome r = Returned tt /\
  self_after r = self /\
  current_state (self_after r) = current_state self /\
  previous_state (self_after r) = previous_state self /\
  remaining_seconds (self_after r) = remaining_seconds self /\
  current_session (self_after r) = current_session self /\
  signals (trace r) = [] /\
  trace r = [Enter CmdStartWorkSession].
Proof.
  destruct self as [cs ps r n q]. fields. intros Hin.
  destruct cs; [exfalso | repeat split ..].
  simpl in Hin. destruct Hin as [H | [H | [H | [H | []]]]]; discriminate H.
Qed.

(** A paused WORK session ignores [start_work_session]. *)
Lemma start_work_session_noop_witness :
  let self := mkTimer PAUSED WORK 17 3 false in
  self_after (Core.start_work_session (mkConfig 1500 300 900 4) self) = self.
Proof.
  assert (Hin : In PAUSED [WORK; SHORT_BREAK; LONG_BREAK; PAUSED])
    by (simpl; auto).
  destruct (start_work_session_noop (mkConfig 1500 300 900 4)
              (mkTimer PAUSED WORK 17 3 false) Hin) as (_ & H & _).
  exact H.
Defined.

(** C8.  The controller decides by [current_state] alone.
    [start_or_resume()] enters exactly [start_work_session()] when IDLE,
    exactly [resume()] when PAUSED, and no core command otherwise;
    [pause_or_resume()] enters exactly [pause()] when WORK, SHORT_BREAK or
    LONG_BREAK, exactly [resume()] when PAUSED, and no core command
    otherwise.  The outcome and the timer object are those of the delegated
    call; without one the object is unchanged and no signal is emitted. *)
Theorem controller_dispatch (cfg : Config) (self : PomodoroTimer) :
  (let r := Controller.start_or_resume cfg self in
   match current_state self with
   | IDLE =>
       let c := Core.start_work_session cfg self in
       entered (trace r) = [CmdStartWorkSession] /\
       trace r = Log DEBUG "Starting work session from controller" :: trace c /\
       outcome r = outcome c /\ self_after r = self_after c
   | PAUSED =>
       let c := Core.resume self in
       entered (trace r) = [CmdResume] /\
       trace r = Log DEBUG "Resuming timer from controller" :: trace c /\
       outcome r = outcome c /\ self_after r = self_after c
   | s =>
       entered (trace r) = [] /\ signals (trace r) = [] /\
       trace r = [Log WARNING ("Cannot start/resume from state: "
                               ++ TimerState_str s)] /\
       outcome r = Returned tt /\ self_after r = self
   end) /\
  (let r := Controller.pause_or_resume self in
   match current_state self with
   | WORK | SHORT_BREAK | LONG_BREAK =>
       let c := Core.pause self in
       entered (trace r) = [CmdPause] /\
       trace r = Log DEBUG "Pausing timer from controller" :: trace c /\
       outcome r = outcome c /\ self_after r = self_after c
   | PAUSED =>
       let c := Core.resume self in
       entered (trace r) = [CmdResume] /\
       trace r = Log DEBUG "Resuming timer from controller" :: trace c /\
       outcome r = outcome c /\ self_after r = self_after c
   | IDLE =>
       entered (trace r) = [] /\ signals (trace r) = [] /\
       trace r = [Log WARNING "Cannot pause/resume from state: TimerState.IDLE"] /\
       outcome r = Returned tt /\ self_after r = self
   end).
Proof.
  destruct self as [cs ps r n q]. fields.
  destruct cs; split; repeat split; destruct ps; reflexivity.
Qed.

(** ** Commands and the [time_changed] signal *)

(** C3, as stated, fails for [reset]: from a running WORK session with 5
    seconds left it sets [remaining_seconds] to 0 and emits only
    [state_changed(IDLE)], no [time_changed]. *)
Lemma reset_emits_no_time_changed :
  let cfg := mkConfig 1500 300 900 4 in
  let self := mkTimer WORK IDLE 5 1 true in
  remaining_seconds (self_after (Core.reset self)) = 0 /\
  signals (trace (Core.reset self)) = [state_changed IDLE] /\
  ~ announces_new_countdown cfg CmdReset self.
Proof.
  repeat split.
  unfold announces_new_countdown. simpl. intros H.
  assert (Hne : 0 <> 5) by lia.
  specialize (H Hne). discriminate H.
Qed.

(** C3 (amended).  The commands that start or restart a countdown,
    [start_work_session] from IDLE, [start_break] from WORK and [resume] from
    PAUSED, end by emitting [time_changed] with the value they leave in
    [remaining_seconds], delivered as a C [int]: the value itself when it is
    inside [-2^31, 2^31), cut to 32 bits otherwise.  So does every public
    command other than [reset] that changes that value.  [reset] sets
    [remaining_seconds] to 0 and emits no [time_changed] at all: it emits
    [state_changed(IDLE)] when the state was not IDLE, and nothing when it
    was. *)
Theorem countdown_start_announced (cfg : Config) (self : PomodoroTimer) :
  (current_state self = IDLE ->
   let r := Core.start_work_session cfg self in
   let w := work_duration_seconds cfg in
   remaining_seconds (self_after r) = w /\
   last_signal (trace r) = Some (time_changed (to_c_int w)) /\
   (in_c_int w -> last_signal (trace r) = Some (time_changed w))) /\
  (current_state self = WORK -> config_ok cfg ->
   let r := Core.start_break cfg self in
   let b := current_state (self_after r) in
   let d := break_duration cfg b in
   outcome r = Returned tt /\ is_break b = true /\
   remaining_seconds (self_after r) = d /\
   last_signal (trace r) = Some (time_changed (to_c_int d)) /\
   (in_c_int d -> last_signal (trace r) = Some (time_changed d))) /\
  (current_state self = PAUSED ->
   let r := Core.resume self in
   let v := remaining_seconds self in
   remaining_seconds (self_after r) = v /\
   last_signal (trace r) = Some (time_changed (to_c_int v)) /\
   (in_c_int v -> last_signal (trace r) = Some (time_changed v))) /\
  (forall c : Command, c <> CmdReset ->
     announces_delivered cfg c self /\
     (in_c_int (remaining_seconds (self_after (call cfg c self))) ->
      announces_new_countdown cfg c self)) /\
  (let r := Core.reset self in
   remaining_seconds (self_after r) = 0 /\
   (forall v : Z, count_signal (time_changed v) (trace r) = 0%nat) /\
   signals (trace r) =
     if TimerState_eqb (current_state self) IDLE then []
     else [state_changed IDLE]).
Proof.
  assert (Hgen : forall c : Command, c <> CmdReset ->
                                     announces_delivered cfg c self).
  { destruct self as [cs ps r n q].
    intros c Hc. unfold announces_delivered.
    destruct c; try (exfalso; apply Hc; reflexivity);
      destruct cs, ps; py_unfold;
      repeat match goal with
             | |- context [if ?b then _ else _] => destruct b; py_unfold
             end;
      intros H; try reflexivity; exfalso; apply H; reflexivity. }
  destruct self as [cs ps r n q]. fields.
  split; [| split; [| split; [| split]]].
  - intros ->. cbv zeta.
    assert (H2 : last_signal (trace (Core.start_work_session cfg
                                       (mkTimer IDLE ps r n q)))
                 = Some (time_changed (to_c_int (work_duration_seconds cfg))))
      by reflexivity.
    split; [reflexivity |]. split; [exact H2 |].
    intros Hr. unfold in_c_int in Hr. rewrite H2.
    rewrite (to_c_int_in_range _ Hr). reflexivity.
  - intros -> Hok. rewrite (start_break_from_work cfg ps r n q Hok).
    cbv zeta. fields. cbn [self_after outcome trace current_state].
    assert (Hb := break_kind_is_break cfg (n - 1)).
    assert (H2 : last_signal
                   [Enter CmdStartBreak;
                    Emit (state_changed (break_kind cfg (n - 1)));
                    Emit (time_changed
                            (to_c_int (break_duration cfg
                                         (break_kind cfg (n - 1)))))]
                 = Some (time_changed
                           (to_c_int (break_duration cfg
                                        (break_kind cfg (n - 1))))))
      by reflexivity.
    split; [reflexivity |]. split; [exact Hb |]. split; [reflexivity |].
    split; [exact H2 |].
    intros Hr. unfold in_c_int in Hr. rewrite H2.
    rewrite (to_c_int_in_range _ Hr). reflexivity.
  - intros ->. cbv zeta.
    assert (H1 : remaining_seconds (self_after (Core.resume (mkTimer PAUSED ps r n q))) = r
                 /\ last_signal (trace (Core.resume (mkTimer PAUSED ps r n q)))
                    = Some (time_changed (to_c_int r)))
      by (destruct ps; split; reflexivity).
    destruct H1 as [H1 H2]. split; [exact H1 |]. split; [exact H2 |].
    intros Hr. unfold in_c_int in Hr. rewrite H2.
    rewrite (to_c_int_in_range _ Hr). reflexivity.
  - intros c Hc. split; [exact (Hgen c Hc) |].
    intros Hr. unfold announces_new_countdown. intros Hchanged.
    rewrite (Hgen c Hc Hchanged).
    rewrite (to_c_int_in_range
               (remaining_seconds (self_after (call cfg c (mkTimer cs ps r n q))))
               Hr).
    reflexivity.
  - cbv zeta. destruct cs; repeat split.
Qed.

(** Starting work from the initial state, and the break after the fourth
    session. *)
Lemma countdown_start_announced_witness :
  let cfg := mkConfig 1500 300 900 4 in
  last_signal (trace (Core.start_work_session cfg init))
    = Some (time_changed 1500) /\
  last_signal (trace (Core.start_break cfg (mkTimer WORK IDLE 0 5 false)))
    = Some (time_changed 900).
Proof.
  assert (Hok : config_ok (mkConfig 1500 300 900 4))
    by (unfold config_ok; simpl; lia).
  destruct (countdown_start_announced (mkConfig 1500 300 900 4) init)
    as (Hw & _).
  destruct (countdown_start_announced (mkConfig 1500 300 900 4)
              (mkTimer WORK IDLE 0 5 false)) as (_ & Hb & _).
  split.
  - destruct (Hw eq_refl) as (_ & _ & H). apply H.
    unfold in_c_int. simpl. lia.
  - destruct (Hb eq_refl Hok) as (_ & _ & _ & _ & H). apply H.
    unfold in_c_int. simpl. lia.
Defined.

(** ** Invariants of runs *)

Ltac split_ifs :=
  repeat match goal with
         | |- context [if ?b then _ else _] => destruct b
         end.

Lemma paused_remembers_step (cfg : Config) (a : Action) (self : PomodoroTimer) :
  paused_remembers self -> paused_remembers (self_after (perform cfg a self)).
Proof.
  unfold paused_remembers. destruct self as [cs ps r n q]. fields.
  intros Inv.
  destruct a as [c | | | | |]; [destruct c | ..];
    destruct cs; try specialize (Inv eq_refl);
    py_unfold; split_ifs; py_unfold;
    try (intros H; discriminate H);
    try (intros _; reflexivity);
    try (intros _; exact Inv);
    destruct ps; try discriminate Inv; py_unfold;
    try (intros H; discriminate H); try (intros _; reflexivity).
Qed.

Lemma reachable_paused_remembers (self : PomodoroTimer) :
  reachable self -> paused_remembers self.
Proof.
  induction 1 as [| cfg a self _ IH].
  - intros H. discriminate H.
  - apply paused_remembers_step. exact IH.
Qed.

Lemma exec_run_reachable (run : Run) (self : PomodoroTimer) :
  reachable self -> reachable (exec_run self run).
Proof.
  revert self. induction run as [| [cfg a] rest IH]; intros self Hreach.
  - exact Hreach.
  - simpl. apply IH. apply reachable_step. exact Hreach.
Qed.

(** C10.  In every state reachable from the initial state by public
    commands, ticks, controller calls and break extensions,
    [current_state = PAUSED] implies that [previous_state] is WORK,
    SHORT_BREAK or LONG_BREAK.  Consequently [resume()] from PAUSED restores
    a counting-down state, and in no reachable state does [resume()] set
    [current_state] to IDLE or PAUSED. *)
Theorem paused_previous_state_counting_down (self : PomodoroTimer) :
  reachable self ->
  (current_state self = PAUSED -> In (previous_state self)
                                     [WORK; SHORT_BREAK; LONG_BREAK]) /\
  (let r := Core.resume self in
   outcome r = Returned tt /\
   (current_state self = PAUSED ->
    current_state (self_after r) = previous_state self /\
    In (current_state (self_after r)) [WORK; SHORT_BREAK; LONG_BREAK]) /\
   (current_state self <> PAUSED -> self_after r = self) /\
   count_signal (state_changed IDLE) (trace r) = 0%nat /\
   count_signal (state_changed PAUSED) (trace r) = 0%nat).
Proof.
  intros Hreach. apply reachable_paused_remembers in Hreach.
  unfold paused_remembers in Hreach.
  destruct self as [cs ps r n q]. revert Hreach. fields. intros Inv.
  assert (Hin : forall s, counting_down s = true ->
                          In s [WORK; SHORT_BREAK; LONG_BREAK]).
  { intros s Hs. destruct s; try discriminate Hs; simpl; auto. }
  split.
  - intros ->. apply Hin, Inv. reflexivity.
  - destruct cs.
    5: { specialize (Inv eq_refl).
         destruct ps; try discriminate Inv; repeat split;
           try (apply Hin; reflexivity).
         all: intros H; elim H; reflexivity. }
    all: repeat split; try reflexivity;
      try match goal with H : _ = PAUSED |- _ => discriminate H end.
Qed.

(** Start, one tick, pause: PAUSED remembers WORK. *)
Lemma paused_previous_state_counting_down_witness :
  let cfg := mkConfig 1500 300 900 4 in
  let self := exec_run init [(cfg, StartOrResume); (cfg, Tick); (cfg, PauseOrResume)] in
  current_state self = PAUSED /\
  In (previous_state self) [WORK; SHORT_BREAK; LONG_BREAK].
Proof.
  set (cfg := mkConfig 1500 300 900 4).
  assert (Hreach : reachable
            (exec_run init [(cfg, StartOrResume); (cfg, Tick); (cfg, PauseOrResume)])).
  { apply exec_run_reachable. apply reachable_init. }
  split.
  - reflexivity.
  - exact (proj1 (paused_previous_state_counting_down _ Hreach) eq_refl).
Defined.

(** ** The session counter along a run *)

Lemma current_session_step (cfg : Config) (a : Action) (self : PomodoroTimer) (n : Z) :
  current_session self = 1 + n ->
  current_session (self_after (perform cfg a self)) = 1 + count_after self a n.
Proof.
  unfold count_after, completes_work, is_reset.
  destruct self as [cs ps r m q]. fields. intros ->.
  destruct a as [c | | | | |]; [destruct c | ..];
    destruct cs; py_unfold; split_ifs; py_unfold;
    try reflexivity; try lia;
    destruct ps; py_unfold; try reflexivity; lia.
Qed.

Lemma completed_work_sessions_unfold (self : PomodoroTimer) (n : Z)
    (cfg : Config) (a : Action) (rest : Run) :
  completed_work_sessions self n ((cfg, a) :: rest) =
  completed_work_sessions (self_after (perform cfg a self)) (count_after self a n) rest.
Proof. reflexivity. Qed.

Lemma current_session_run (run : Run) (self : PomodoroTimer) (n : Z) :
  current_session self = 1 + n ->
  current_session (exec_run self run) = 1 + completed_work_sessions self n run.
Proof.
  revert self n. induction run as [| [cfg a] rest IH]; intros self n Hn.
  - exact Hn.
  - rewrite completed_work_sessions_unfold. cbn [exec_run].
    apply IH. apply current_session_step. exact Hn.
Qed.

Lemma completed_work_sessions_nonneg (run : Run) (self : PomodoroTimer) (n : Z) :
  0 <= n -> 0 <= completed_work_sessions self n run.
Proof.
  revert self n. induction run as [| [cfg a] rest IH]; intros self n Hn.
  - exact Hn.
  - rewrite completed_work_sessions_unfold. apply IH.
    unfold count_after. destruct (is_reset a); [lia |].
    destruct (completes_work self a); lia.
Qed.

Lemma completed_work_sessions_snoc (run : Run) (self : PomodoroTimer) (n : Z)
    (cfg : Config) (a : Action) :
  completed_work_sessions self n (run ++ [(cfg, a)]) =
  count_after (exec_run self run) a (completed_work_sessions self n run).
Proof.
  revert self n. induction run as [| [cfg' a'] rest IH]; intros self n.
  - reflexivity.
  - cbn [app]. rewrite !completed_work_sessions_unfold. cbn [exec_run].
    apply IH.
Qed.

(** The tick that completes a WORK session, under a usable configuration. *)
Lemma tick_completes_work (cfg : Config) (self : PomodoroTimer) :
  config_ok cfg ->
  completes_work self Tick = true ->
  perform cfg Tick self =
  let b := break_kind cfg (current_session self) in
  mkRan (Returned tt)
    (mkTimer b (previous_state self) (break_duration cfg b)
       (current_session self + 1) true)
    [Emit (time_changed (to_c_int (remaining_seconds self - 1)));
     Emit (session_completed WORK); Enter CmdStartBreak;
     Emit (state_changed b);
     Emit (time_changed (to_c_int (break_duration cfg b)))].
Proof.
  unfold config_ok, completes_work, break_kind, break_duration.
  destruct self as [cs ps r n q]. fields. intros Hok Hc.
  apply Z.eqb_neq in Hok.
  destruct q; [| discriminate Hc].
  destruct cs; try discriminate Hc. simpl in Hc.
  py_unfold. rewrite Hc. py_unfold.
  replace (n + 1 - 1) with n by lia.
  destruct (0 <? n); [| reflexivity].
  rewrite Hok. destruct (_ mod _ =? 0); reflexivity.
Qed.

(** C1.  Take any run from the initial state, and let the next tick exhaust
    the countdown of a WORK session: the k-th one completed since the timer
    was created or last reset.  Under a configuration with
    [sessions_until_long_break = N], [N <> 0], the tick returns normally and
    the break it starts is LONG_BREAK if and only if [k > 0] and
    [k mod N = 0], SHORT_BREAK otherwise, because [current_session] has been
    incremented to [k + 1] when [start_break] computes
    [completed = current_session - 1].  With [N = 4] completions 1, 2, 3 give
    a short break, 4 a long one, 5, 6, 7 a short one and 8 a long one. *)
Theorem long_break_every_nth (cfg : Config) (run : Run) :
  let self := exec_run init run in
  let N := sessions_until_long_break cfg in
  let k := completed_work_sessions init 0 run + 1 in
  config_ok cfg ->
  completes_work self Tick = true ->
  let r := perform cfg Tick self in
  1 <= k /\
  completed_work_sessions init 0 (run ++ [(cfg, Tick)]) = k /\
  outcome r = Returned tt /\
  count_signal (session_completed WORK) (trace r) = 1%nat /\
  current_session (self_after r) - 1 = k /\
  breaks_started (trace r) = [current_state (self_after r)] /\
  (current_state (self_after r) = LONG_BREAK <-> 0 < k /\ k mod N = 0) /\
  (current_state (self_after r) = SHORT_BREAK <-> ~ (0 < k /\ k mod N = 0)) /\
  (N = 4 -> k <= 8 ->
   (current_state (self_after r) = LONG_BREAK <-> k = 4 \/ k = 8)) /\
  breaks_started (run_trace init eight_sessions) =
    [SHORT_BREAK; SHORT_BREAK; SHORT_BREAK; LONG_BREAK;
     SHORT_BREAK; SHORT_BREAK; SHORT_BREAK; LONG_BREAK].
Proof.
  intros self N k Hok Hc r.
  assert (Hk : current_session self = k).
  { unfold self, k. rewrite (current_session_run run init 0) by reflexivity. lia. }
  assert (Hpos : 1 <= k).
  { unfold k. pose proof (completed_work_sessions_nonneg run init 0). lia. }
  assert (Hr : r = perform cfg Tick self) by reflexivity.
  rewrite (tick_completes_work cfg self Hok Hc) in Hr. cbv zeta in Hr.
  rewrite Hk in Hr.
  assert (Hkind : (current_state (self_after r) = LONG_BREAK
                   <-> 0 < k /\ k mod N = 0) /\
                  (current_state (self_after r) = SHORT_BREAK
                   <-> ~ (0 < k /\ k mod N = 0))).
  { rewrite Hr. cbn [self_after current_state]. unfold break_kind. fold N.
    assert (Hb : (0 <? k) && (k mod N =? 0) = true <-> 0 < k /\ k mod N = 0)
      by (rewrite andb_true_iff, Z.ltb_lt, Z.eqb_eq; tauto).
    destruct ((0 <? k) && (k mod N =? 0)).
    - split; split.
      + intros _. apply Hb. reflexivity.
      + reflexivity.
      + intros H. discriminate H.
      + intros H. exfalso. apply H, Hb. reflexivity.
    - split; split.
      + intros H. discriminate H.
      + intros H. apply Hb in H. discriminate H.
      + intros _ H. apply Hb in H. discriminate H.
      + reflexivity. }
  destruct Hkind as [Hlong Hshort].
  split; [exact Hpos |].
  split.
  { rewrite completed_work_sessions_snoc. unfold count_after.
    fold self. rewrite Hc. reflexivity. }
  split; [rewrite Hr; reflexivity |].
  split; [rewrite Hr; unfold count_signal; simpl;
          destruct (break_kind cfg k); reflexivity |].
  split; [rewrite Hr; cbn [self_after current_session]; lia |].
  split.
  { rewrite Hr. pose proof (break_kind_is_break cfg k) as Hb.
    unfold breaks_started. simpl. rewrite Hb. reflexivity. }
  split; [exact Hlong |].
  split; [exact Hshort |].
  split; [| reflexivity].
  intros HN Hk8. rewrite Hlong, HN.
  assert (Hcases : k = 1 \/ k = 2 \/ k = 3 \/ k = 4 \/ k = 5 \/ k = 6
                   \/ k = 7 \/ k = 8) by lia.
  split.
  - intros [_ Hm].
    destruct Hcases as [E | [E | [E | [E | [E | [E | [E | E]]]]]]];
      rewrite E in Hm; try discriminate Hm; auto.
  - intros [E | E]; rewrite E; split; try lia; reflexivity.
Qed.

(** Three sessions with their breaks, then a fourth WORK session about to
    complete. *)
Lemma long_break_every_nth_witness :
  let cfg := mkConfig 1 1 1 4 in
  let run := firstn 10 eight_sessions in
  completes_work (exec_run init run) Tick = true /\
  completed_work_sessions init 0 run + 1 = 4 /\
  current_state (self_after (perform cfg Tick (exec_run init run))) = LONG_BREAK.
Proof.
  assert (Hok : config_ok (mkConfig 1 1 1 4)) by (unfold config_ok; simpl; lia).
  assert (Hc : completes_work (exec_run init (firstn 10 eight_sessions)) Tick = true)
    by reflexivity.
  destruct (long_break_every_nth (mkConfig 1 1 1 4) (firstn 10 eight_sessions) Hok Hc)
    as (_ & _ & _ & _ & _ & _ & Hlong & _).
  split; [exact Hc |]. split; [reflexivity |].
  apply Hlong. split; reflexivity.
Defined.

(** The configurations the application builds never have a zero
    [sessions_until_long_break]. *)
Lemma config_sources_nonzero :
  (forall stored, ConfigSources.loaded_sessions stored <> 0) /\
  (forall arg, ConfigSources.test_mode_sessions arg <> 0) /\
  (forall v, ConfigSources.spin_sessions v <> 0).
Proof.
  unfold ConfigSources.loaded_sessions, ConfigSources.test_mode_sessions,
    ConfigSources.spin_sessions, ConfigSources.sessions_field_ok,
    ConfigSources.sessions_default.
  repeat split.
  - intros [n |]; [| lia].
    destruct ((2 <=? n) && (n <=? 10)) eqn:E; [| lia].
    apply andb_true_iff in E. destruct E as [E _]. apply Z.leb_le in E. lia.
  - intros [n |]; [| lia].
    destruct (n =? 0) eqn:E; [lia |]. apply Z.eqb_neq in E. exact E.
  - intros v. lia.
Qed.

(** ** The mm:ss display *)

Module DisplayFacts.
Import Display.

Lemma append_assoc (a b c : string) : ((a ++ b) ++ c = a ++ (b ++ c))%string.
Proof. induction a as [| ch a IH]; simpl; [reflexivity | now rewrite IH]. Qed.

Lemma length_append (a b : string) :
  String.length (a ++ b)%string = (String.length a + String.length b)%nat.
Proof. induction a as [| ch a IH]; simpl; [reflexivity | now rewrite IH]. Qed.

Lemma digit_value_char (d : Z) :
  0 <= d < 10 -> digit_value (digit_char d) = Some d.
Proof.
  intros Hd.
  assert (Hcases : d = 0 \/ d = 1 \/ d = 2 \/ d = 3 \/ d = 4 \/ d = 5
                   \/ d = 6 \/ d = 7 \/ d = 8 \/ d = 9) by lia.
  destruct Hcases as [E | [E | [E | [E | [E | [E | [E | [E | [E | E]]]]]]]]];
    rewrite E; reflexivity.
Qed.

Lemma digits_aux_acc (fuel : nat) (n : Z) (acc : string) :
  digits_aux fuel n acc = (digits_aux fuel n EmptyString ++ acc)%string.
Proof.
  revert n acc. induction fuel as [| fuel IH]; intros n acc; simpl.
  - reflexivity.
  - destruct (n <? 10); [reflexivity |].
    rewrite IH. rewrite (IH _ (String _ EmptyString)).
    rewrite append_assoc. reflexivity.
Qed.

(** One more digit on the right. *)
Lemma digits_aux_step (fuel : nat) (n : Z) :
  digits_aux (S fuel) n EmptyString =
  if n <? 10 then String (digit_char (n mod 10)) EmptyString
  else (digits_aux fuel (n / 10) EmptyString
        ++ String (digit_char (n mod 10)) EmptyString)%string.
Proof.
  simpl. destruct (n <? 10); [reflexivity | apply digits_aux_acc].
Qed.

Lemma read_digits_app (s1 s2 : string) (a : Z) :
  read_digits (s1 ++ s2)%string a =
  match read_digits s1 a with
  | Some v => read_digits s2 v
  | None => None
  end.
Proof.
  revert a. induction s1 as [| c s1 IH]; intros a; simpl.
  - reflexivity.
  - destruct (digit_value c); [apply IH | reflexivity].
Qed.

Lemma pow2_succ (fuel : nat) : 2 ^ Z.of_nat (S fuel) = 2 * 2 ^ Z.of_nat fuel.
Proof. rewrite Nat2Z.inj_succ. apply Z.pow_succ_r. lia. Qed.

(** Enough fuel gives all the digits: reading them back gives [n]. *)
Lemma read_digits_aux (fuel : nat) :
  forall n : Z, 0 <= n < 2 ^ Z.of_nat fuel ->
  read_digits (digits_aux fuel n EmptyString) 0 = Some n.
Proof.
  induction fuel as [| fuel IH]; intros n Hn.
  - simpl in *. f_equal. lia.
  - rewrite digits_aux_step. rewrite pow2_succ in Hn.
    assert (Hmod : 0 <= n mod 10 < 10) by (apply Z.mod_pos_bound; lia).
    destruct (n <? 10) eqn:E.
    + apply Z.ltb_lt in E. cbn [read_digits].
      rewrite (digit_value_char _ Hmod).
      f_equal. rewrite Z.mod_small; lia.
    + apply Z.ltb_ge in E. rewrite read_digits_app.
      rewrite IH.
      * cbn [read_digits]. rewrite (digit_value_char _ Hmod). f_equal.
        pose proof (Z.div_mod n 10). lia.
      * split; [apply Z.div_pos; lia |].
        apply Z.div_lt_upper_bound; lia.
Qed.

Lemma str_nonneg_fuel (n : Z) :
  0 <= n -> n < 2 ^ Z.of_nat (S (Z.to_nat (Z.log2 n))).
Proof.
  intros Hn. rewrite Nat2Z.inj_succ, Z2Nat.id by apply Z.log2_nonneg.
  destruct (Z.eq_dec n 0) as [-> | Hne]; [reflexivity |].
  apply Z.log2_spec. lia.
Qed.

Lemma read_str_nonneg (n : Z) :
  0 <= n -> read_digits (str_nonneg n) 0 = Some n.
Proof.
  intros Hn. apply read_digits_aux. split; [exact Hn | now apply str_nonneg_fuel].
Qed.

Lemma length_digits_pos (fuel : nat) (n : Z) :
  (1 <= String.length (digits_aux (S fuel) n EmptyString))%nat.
Proof.
  rewrite digits_aux_step. destruct (n <? 10); [simpl; lia |].
  rewrite length_append. simpl. lia.
Qed.

Lemma length_digits_one (fuel : nat) (n : Z) :
  n < 10 -> String.length (digits_aux (S fuel) n EmptyString) = 1%nat.
Proof.
  intros Hn. rewrite digits_aux_step.
  apply Z.ltb_lt in Hn. rewrite Hn. reflexivity.
Qed.

Lemma length_digits_two (fuel : nat) (n : Z) :
  10 <= n ->
  (2 <= String.length (digits_aux (S (S fuel)) n EmptyString))%nat /\
  (n < 100 -> String.length (digits_aux (S (S fuel)) n EmptyString) = 2%nat).
Proof.
  intros Hn. rewrite digits_aux_step.
  assert (E : (n <? 10) = false) by (apply Z.ltb_ge; exact Hn).
  rewrite E, length_append. simpl String.length at 2 4.
  pose proof (length_digits_pos fuel (n / 10)). split; [lia |].
  intros H100. rewrite length_digits_one; [reflexivity |].
  apply Z.div_lt_upper_bound; lia.
Qed.

Lemma str_nonneg_fuel_two (n : Z) :
  10 <= n -> exists fuel, S (Z.to_nat (Z.log2 n)) = S (S fuel).
Proof.
  intros Hn.
  assert (H3 : 3 <= Z.log2 n).
  { change 3 with (Z.log2 8). apply Z.log2_le_mono. lia. }
  exists (Z.to_nat (Z.log2 n) - 1)%nat. lia.
Qed.

Lemma length_zeros (k : nat) : String.length (zeros k) = k.
Proof. induction k as [| k IH]; simpl; [reflexivity | now rewrite IH]. Qed.

Lemma read_zeros (k : nat) (s : string) :
  read_digits (zeros k ++ s)%string 0 = read_digits s 0.
Proof. induction k as [| k IH]; simpl; [reflexivity | exact IH]. Qed.

(** A non-negative value formatted with [02d]: at least two characters,
    exactly two below 100, all of them digits, and they read back as the
    value. *)
Lemma format_02d_nonneg (n : Z) :
  0 <= n ->
  int_of_field (format_02d n) = Some n /\
  (2 <= String.length (format_02d n))%nat /\
  (n < 100 -> String.length (format_02d n) = 2%nat).
Proof.
  intros Hn. unfold format_02d.
  assert (E : (n <? 0) = false) by (apply Z.ltb_ge; exact Hn). rewrite E.
  assert (Hread : read_digits (zeros (2 - String.length (str_nonneg n))
                               ++ str_nonneg n)%string 0 = Some n)
    by (rewrite read_zeros; apply read_str_nonneg; exact Hn).
  assert (Hlen : (2 <= String.length (zeros (2 - String.length (str_nonneg n))
                                      ++ str_nonneg n)%string)%nat /\
                 (n < 100 ->
                  String.length (zeros (2 - String.length (str_nonneg n))
                                 ++ str_nonneg n)%string = 2%nat)).
  { rewrite length_append, length_zeros. unfold str_nonneg.
    destruct (Z_lt_le_dec n 10) as [Hs | Hl].
    - rewrite (length_digits_one _ n Hs). split; [lia | intros _; lia].
    - destruct (str_nonneg_fuel_two n Hl) as [fuel ->].
      destruct (length_digits_two fuel n Hl) as [H2 H100].
      split; [lia | intros H; rewrite (H100 H); lia]. }
  split; [| exact Hlen].
  unfold int_of_field.
  destruct (zeros (2 - String.length (str_nonneg n)) ++ str_nonneg n)%string eqn:Es.
  - destruct Hlen as [Hlen _]. simpl in Hlen. lia.
  - exact Hread.
Qed.

End DisplayFacts.

(** C9.  For [remaining_seconds >= 0], [get_time_display()] is a minutes
    field, a colon and a seconds field; the fields are decimal digits that
    read back as [remaining_seconds div 60] and [remaining_seconds mod 60],
    each padded with zeros to two characters (the seconds field has exactly
    two, the minutes field exactly two below 100 minutes).  65 renders as
    01:05 and 0 as 00:00. *)
Theorem get_time_display_mm_ss (self : PomodoroTimer) :
  0 <= remaining_seconds self ->
  let r := remaining_seconds self in
  (exists mm ss : string,
     Display.get_time_display self = (mm ++ ":" ++ ss)%string /\
     mm = Display.format_02d (r / 60) /\
     ss = Display.format_02d (r mod 60) /\
     Display.int_of_field mm = Some (r / 60) /\
     Display.int_of_field ss = Some (r mod 60) /\
     (2 <= String.length mm)%nat /\
     (r < 6000 -> String.length mm = 2%nat) /\
     String.length ss = 2%nat) /\
  (r = 65 -> Display.get_time_display self = "01:05"%string) /\
  (r = 0 -> Display.get_time_display self = "00:00"%string).
Proof.
  intros Hr r.
  assert (Hm : 0 <= r / 60) by (apply Z.div_pos; lia).
  assert (Hs : 0 <= r mod 60 < 60) by (apply Z.mod_pos_bound; lia).
  destruct (DisplayFacts.format_02d_nonneg (r / 60) Hm) as (Hm1 & Hm2 & Hm3).
  destruct (DisplayFacts.format_02d_nonneg (r mod 60) (proj1 Hs)) as (Hs1 & _ & Hs3).
  split.
  - exists (Display.format_02d (r / 60)), (Display.format_02d (r mod 60)).
    repeat split; try assumption.
    + intros H. apply Hm3. apply Z.div_lt_upper_bound; lia.
    + apply Hs3. lia.
  - unfold Display.get_time_display. fold r.
    split; intros ->; reflexivity.
Qed.

(** The two renderings of the specification. *)
Lemma get_time_display_mm_ss_witness :
  Display.get_time_display (mkTimer WORK IDLE 65 1 true) = "01:05"%string /\
  Display.get_time_display init = "00:00"%string.
Proof.
  assert (H65 : 0 <= remaining_seconds (mkTimer WORK IDLE 65 1 true))
    by (simpl; lia).
  assert (H0 : 0 <= remaining_seconds init) by (simpl; lia).
  split.
  - exact (proj1 (proj2 (get_time_display_mm_ss _ H65)) eq_refl).
  - exact (proj2 (proj2 (get_time_display_mm_ss _ H0)) eq_refl).
Defined.

(** * Further properties of the timer and its collaborators *)

(** Splits on a condition that is itself free of conditions, keeping what is
    learnt about it. *)
Ltac split_atomic_ifs :=
  repeat (match goal with
          | |- context [if ?b then _ else _] =>
              lazymatch b with
              | context [if _ then _ else _] => fail
              | _ => let E := fresh "E" in destruct b eqn:E
              end
          end; py_unfold).

Ltac bool_facts :=
  repeat match goal with
         | H : (_ <=? _) = true |- _ => apply Z.leb_le in H
         | H : (_ <=? _) = false |- _ => apply Z.leb_gt in H
         | H : (_ <? _) = true |- _ => apply Z.ltb_lt in H
         | H : (_ <? _) = false |- _ => apply Z.ltb_ge in H
         | H : (_ =? _) = true |- _ => apply Z.eqb_eq in H
         | H : (_ =? _) = false |- _ => apply Z.eqb_neq in H
         end.

(** ** Signals of one action *)

(** X1.  Every action (a public command, a tick, a controller call, a break
    extension), in every state, emits [state_changed] at most once: exactly
    once, carrying the new state, when it leaves [current_state] different
    from what it was, and not at all when [current_state] is unchanged. *)
Theorem state_changed_iff_changed (cfg : Config) (a : Action) (self : PomodoroTimer) :
  let r := perform cfg a self in
  state_changes (trace r) =
  if TimerState_eqb (current_state (self_after r)) (current_state self)
  then [] else [current_state (self_after r)].
Proof.
  destruct self as [cs ps r n q].
  destruct a as [c | | | | |]; [destruct c | ..];
    destruct cs, ps; py_unfold; split_atomic_ifs; reflexivity.
Qed.

(** X2.  [session_completed] is emitted by an action exactly when the
    action is a delivered timeout that brings the countdown of WORK,
    SHORT_BREAK or LONG_BREAK to zero or below; it is then emitted once and
    carries the phase that ended.  No command ever emits it. *)
Theorem session_completed_iff_exhausted (cfg : Config) (a : Action) (self : PomodoroTimer) :
  let r := perform cfg a self in
  completions (trace r) =
  if completes_phase self a then [current_state self] else [].
Proof.
  destruct self as [cs ps r n q]. unfold completes_phase.
  destruct a as [c | | | | |]; [destruct c | ..];
    destruct cs, ps; py_unfold; split_atomic_ifs; reflexivity.
Qed.

(** X3.  After any action [current_session] is 1 if the action is a
    reset, one more than before if it is a tick that exhausts a WORK
    countdown, and unchanged in every other case: it never decreases except
    by a reset. *)
Theorem current_session_law (cfg : Config) (a : Action) (self : PomodoroTimer) :
  current_session (self_after (perform cfg a self)) =
  if is_reset a then 1
  else if completes_work self a then current_session self + 1
  else current_session self.
Proof.
  pose proof (current_session_step cfg a self (current_session self - 1)) as H.
  unfold count_after in H. rewrite H by lia.
  destruct (is_reset a); [reflexivity |].
  destruct (completes_work self a); lia.
Qed.

(** ** Wrong-state commands *)

(** X4.  Outside their precondition the commands are silent no-ops:
    [start_break()] when the state is not WORK, [pause()] when it is not
    WORK, SHORT_BREAK or LONG_BREAK, and [resume()] when it is not PAUSED
    return normally, leave the whole object unchanged and emit nothing. *)
Theorem wrong_state_commands_noop (cfg : Config) (self : PomodoroTimer) :
  (current_state self <> WORK ->
   Core.start_break cfg self = mkRan (Returned tt) self [Enter CmdStartBreak]) /\
  (counting_down (current_state self) = false ->
   Core.pause self = mkRan (Returned tt) self [Enter CmdPause]) /\
  (current_state self <> PAUSED ->
   Core.resume self = mkRan (Returned tt) self [Enter CmdResume]).
Proof.
  destruct self as [cs ps r n q]. fields.
  repeat split; intros H; destruct cs;
    try reflexivity; try discriminate H; elim H; reflexivity.
Qed.

Lemma wrong_state_commands_noop_witness :
  Core.pause init = mkRan (Returned tt) init [Enter CmdPause] /\
  Core.resume init = mkRan (Returned tt) init [Enter CmdResume].
Proof.
  destruct (wrong_state_commands_noop (mkConfig 1500 300 900 4) init)
    as (_ & Hp & Hr).
  split; [exact (Hp eq_refl) | apply Hr; discriminate].
Defined.

(** ** The countdown timer and the state *)

Lemma timer_only_counting_step (cfg : Config) (a : Action) (self : PomodoroTimer) :
  timer_only_counting self ->
  timer_only_counting (self_after (perform cfg a self)).
Proof.
  unfold timer_only_counting. destruct self as [cs ps r n q]. fields.
  intros [Hq Hp].
  destruct a as [c | | | | |]; [destruct c | ..];
    destruct cs, ps, q;
    try (specialize (Hp eq_refl); discriminate Hp);
    try (specialize (Hq eq_refl); discriminate Hq);
    py_unfold; split_atomic_ifs;
    (split; intros H; try reflexivity; discriminate H).
Qed.

Lemma reachable_timer_only_counting (self : PomodoroTimer) :
  reachable self -> timer_only_counting self.
Proof.
  induction 1 as [| cfg a self _ IH].
  - split; intros H; discriminate H.
  - apply timer_only_counting_step. exact IH.
Qed.

(** X5.  In every reachable state the [QTimer] is active only while
    [current_state] is WORK, SHORT_BREAK or LONG_BREAK.  In a reachable IDLE
    or PAUSED state it is stopped, so no timeout is delivered and
    [remaining_seconds] is not decremented. *)
Theorem no_tick_unless_counting (self : PomodoroTimer) :
  reachable self ->
  (qt_timer_active self = true -> counting_down (current_state self) = true) /\
  (In (current_state self) [IDLE; PAUSED] ->
   qt_timer_active self = false /\
   forall cfg : Config, perform cfg Tick self = mkRan (Returned tt) self []).
Proof.
  intros Hreach. apply reachable_timer_only_counting in Hreach.
  destruct Hreach as [Hq _]. split; [exact Hq |].
  intros Hin.
  assert (Hoff : qt_timer_active self = false).
  { destruct (qt_timer_active self); [| reflexivity].
    specialize (Hq eq_refl).
    destruct Hin as [E | [E | []]]; rewrite <- E in Hq; discriminate Hq. }
  split; [exact Hoff |].
  intros cfg. destruct self as [cs ps r n q]. simpl in Hoff. subst q.
  reflexivity.
Qed.

Lemma no_tick_unless_counting_witness :
  let cfg := mkConfig 1500 300 900 4 in
  let self := exec_run init [(cfg, StartOrResume); (cfg, Tick); (cfg, PauseOrResume)] in
  current_state self = PAUSED /\
  perform cfg Tick self = mkRan (Returned tt) self [].
Proof.
  split; [reflexivity |].
  refine (proj2 (proj2 (no_tick_unless_counting _ _) _) _).
  - apply exec_run_reachable, reachable_init.
  - simpl. auto.
Defined.

(** X6.  In every reachable state, issuing the same command twice in a
    row ([start_work_session], [start_break], [pause], [resume], [reset],
    or the controller's [start_or_resume] or [reset]) leaves the object as
    the first call left it, and the second call emits no signal. *)
Theorem commands_idempotent (cfg : Config) (a : Action) (self : PomodoroTimer) :
  reachable self ->
  In a [Call CmdStartWorkSession; Call CmdStartBreak; Call CmdPause;
        Call CmdResume; Call CmdReset; StartOrResume; ControllerReset] ->
  let once := perform cfg a self in
  let twice := perform cfg a (self_after once) in
  self_after twice = self_after once /\ signals (trace twice) = [].
Proof.
  intros Hreach Hin.
  apply reachable_paused_remembers in Hreach. unfold paused_remembers in Hreach.
  destruct self as [cs ps r n q]. revert Hreach. fields. intros Hp.
  simpl in Hin.
  destruct Hin as [<- | [<- | [<- | [<- | [<- | [<- | [<- | []]]]]]]];
    destruct cs, ps;
    try (specialize (Hp eq_refl); discriminate Hp);
    py_unfold; split_atomic_ifs; try discriminate; split; reflexivity.
Qed.

Lemma commands_idempotent_witness :
  let cfg := mkConfig 1500 300 900 4 in
  self_after (perform cfg StartOrResume (self_after (perform cfg StartOrResume init)))
  = self_after (perform cfg StartOrResume init).
Proof.
  assert (Hin : In StartOrResume
                  [Call CmdStartWorkSession; Call CmdStartBreak; Call CmdPause;
                   Call CmdResume; Call CmdReset; StartOrResume; ControllerReset])
    by (simpl; auto 10).
  exact (proj1 (commands_idempotent (mkConfig 1500 300 900 4) StartOrResume init
                  reachable_init Hin)).
Defined.

(** ** Exceptions *)

(** With a divisor that is not zero nothing raises. *)
Lemma no_raise_under_config_ok (cfg : Config) (a : Action) (self : PomodoroTimer) :
  config_ok cfg -> outcome (perform cfg a self) = Returned tt.
Proof.
  unfold config_ok. destruct self as [cs ps r n q]. intros Hok.
  destruct a as [c | | | | |]; [destruct c | ..];
    destruct cs, ps; py_unfold; split_atomic_ifs; bool_facts;
    try reflexivity; contradiction.
Qed.

(** X7.  [start_break()] raises [ZeroDivisionError] exactly when it is
    called in WORK with [current_session > 1] and
    [sessions_until_long_break = 0]; it then has changed nothing and emitted
    nothing.  With a non-zero [sessions_until_long_break] no action raises,
    in any state. *)
Theorem start_break_raises_iff (cfg : Config) (self : PomodoroTimer) :
  let r := Core.start_break cfg self in
  (outcome r = Raised ZeroDivisionError <->
   current_state self = WORK /\ 1 < current_session self
   /\ sessions_until_long_break cfg = 0) /\
  (outcome r = Raised ZeroDivisionError ->
   self_after r = self /\ signals (trace r) = []) /\
  (config_ok cfg ->
   forall a : Action, outcome (perform cfg a self) = Returned tt).
Proof.
  split; [| split];
    [| | intros Hok a; apply no_raise_under_config_ok; exact Hok].
  all: destruct self as [cs ps r n q]; fields.
  - destruct cs; py_unfold; split_atomic_ifs; bool_facts;
      (split; [intros H; try discriminate H; repeat split; (assumption || lia)
              | intros (H1 & H2 & H3); try discriminate H1;
                try reflexivity; lia]).
  - destruct cs; py_unfold; split_atomic_ifs;
      intros H; try discriminate H; split; reflexivity.
Qed.

Lemma start_break_raises_iff_witness :
  outcome (perform (mkConfig 1500 300 900 4) Tick (mkTimer WORK IDLE 1 4 true))
  = Returned tt.
Proof.
  assert (Hok : config_ok (mkConfig 1500 300 900 4))
    by (unfold config_ok; simpl; lia).
  exact (proj2 (proj2 (start_break_raises_iff (mkConfig 1500 300 900 4)
                         (mkTimer WORK IDLE 1 4 true))) Hok Tick).
Defined.

(** ** Runs under well-formed configurations *)

Lemma time_values_app (t1 t2 : list Obs) :
  time_values (t1 ++ t2) = time_values t1 ++ time_values t2.
Proof. unfold time_values, signals. now rewrite !flat_map_app. Qed.

Lemma completions_app (t1 t2 : list Obs) :
  completions (t1 ++ t2) = completions t1 ++ completions t2.
Proof. unfold completions, signals. now rewrite !flat_map_app. Qed.

Lemma exec_run_app (r1 r2 : Run) (self : PomodoroTimer) :
  exec_run self (r1 ++ r2) = exec_run (exec_run self r1) r2.
Proof.
  revert self. induction r1 as [| [cfg a] r1 IH]; intros self; simpl.
  - reflexivity.
  - apply IH.
Qed.

Lemma run_trace_app (r1 r2 : Run) (self : PomodoroTimer) :
  run_trace self (r1 ++ r2) =
  run_trace self r1 ++ run_trace (exec_run self r1) r2.
Proof.
  revert self. induction r1 as [| [cfg a] r1 IH]; intros self; simpl.
  - reflexivity.
  - rewrite IH, app_assoc. reflexivity.
Qed.

Lemma healthy_step (cfg : Config) (a : Action) (self : PomodoroTimer) :
  config_wf cfg -> healthy self ->
  healthy (self_after (perform cfg a self)).
Proof.
  unfold config_wf, healthy. destruct self as [cs ps r n q]. fields.
  intros (Hw & Hs & Hl & HN) (H0 & H1 & Hq & Hp).
  destruct a as [c | | | | |]; [destruct c | ..];
    destruct cs, ps;
    try (specialize (Hp eq_refl); discriminate Hp);
    simpl in Hq; subst q;
    try (assert (1 <= r) by (apply H1; discriminate));
    py_unfold; split_atomic_ifs; bool_facts; try contradiction;
    repeat split; try reflexivity; try lia;
    try (intros F; discriminate F);
    try (intros F; elim F; reflexivity).
Qed.

(** While the countdown fits a C [int], so do the values delivered. *)
Lemma delivered_step (cfg : Config) (a : Action) (self : PomodoroTimer) :
  config_wf cfg -> config_fits_c_int cfg -> is_extend a = false ->
  healthy self -> remaining_seconds self <= 2147483647 ->
  remaining_seconds (self_after (perform cfg a self)) <= 2147483647 /\
  Forall (fun v => 0 <= v <= 2147483647)
         (time_values (trace (perform cfg a self))).
Proof.
  unfold config_wf, config_fits_c_int, healthy.
  destruct self as [cs ps r n q]. fields.
  intros (Hw & Hs & Hl & HN) (Fw & Fs & Fl) Hext (H0 & H1 & Hq & Hp) Hr.
  destruct a as [c | | | | |]; [destruct c | ..]; try discriminate Hext;
    destruct cs, ps;
    try (specialize (Hp eq_refl); discriminate Hp);
    simpl in Hq; subst q;
    try (assert (1 <= r) by (apply H1; discriminate));
    py_unfold; split_atomic_ifs; bool_facts; try contradiction;
    (split;
     [ lia
     | unfold time_values, signals; cbn [flat_map app];
       repeat constructor; rewrite to_c_int_in_range by lia; lia ]).
Qed.

(** X8.  Along every run from the initial state in which each
    configuration has durations of at least one second and a non-zero
    [sessions_until_long_break]: [remaining_seconds] is never negative, it is
    at least 1 outside IDLE, and the [QTimer] is active exactly in WORK,
    SHORT_BREAK and LONG_BREAK.  When moreover every duration is at most
    2^31 - 1 seconds and no break is extended, [remaining_seconds] stays at
    most 2^31 - 1 and every [time_changed] signal carries a value between 0
    and 2^31 - 1. *)
Theorem remaining_seconds_never_negative (run : Run) :
  Forall (fun step => config_wf (fst step)) run ->
  let self := exec_run init run in
  0 <= remaining_seconds self /\
  (current_state self <> IDLE -> 1 <= remaining_seconds self) /\
  qt_timer_active self = counting_down (current_state self) /\
  (Forall (fun step => config_fits_c_int (fst step)
                       /\ is_extend (snd step) = false) run ->
   remaining_seconds self <= 2147483647 /\
   Forall (fun v => 0 <= v <= 2147483647) (time_values (run_trace init run))).
Proof.
  intros Hwf.
  assert (Hgen : forall self, healthy self ->
                 healthy (exec_run self run) /\
                 (Forall (fun step => config_fits_c_int (fst step)
                                      /\ is_extend (snd step) = false) run ->
                  remaining_seconds self <= 2147483647 ->
                  remaining_seconds (exec_run self run) <= 2147483647 /\
                  Forall (fun v => 0 <= v <= 2147483647)
                         (time_values (run_trace self run)))).
  { induction Hwf as [| [cfg a] rest Hcfg _ IH]; intros self Hh.
    - split; [exact Hh |]. intros _ Hr. split; [exact Hr | constructor].
    - simpl in Hcfg.
      pose proof (healthy_step cfg a self Hcfg Hh) as Hh'.
      destruct (IH _ Hh') as [Hh'' Hrest].
      split; [exact Hh'' |].
      intros Hfit Hr. inversion Hfit as [| step rest' [Hf Hx] Hfit' E]. subst.
      simpl in Hf, Hx.
      destruct (delivered_step cfg a self Hcfg Hf Hx Hh Hr) as [Hr' Hv].
      destruct (Hrest Hfit' Hr') as [Hr'' Hv'].
      split; [exact Hr'' |].
      cbn [run_trace]. rewrite time_values_app.
      apply Forall_app. split; assumption. }
  assert (Hinit : healthy init).
  { unfold healthy. simpl. repeat split; try lia.
    - intros F. elim F. reflexivity.
    - intros F. discriminate F. }
  destruct (Hgen init Hinit) as [(H0 & H1 & Hq & _) Hv].
  cbv zeta. split; [exact H0 |]. split; [exact H1 |]. split; [exact Hq |].
  intros Hfit. apply Hv; [exact Hfit | simpl; lia].
Qed.

Lemma remaining_seconds_never_negative_witness :
  Forall (fun v => 0 <= v <= 2147483647)
         (time_values (run_trace init eight_sessions)).
Proof.
  assert (Hwf : Forall (fun step => config_wf (fst step)) eight_sessions).
  { unfold eight_sessions. simpl.
    repeat constructor; simpl; try lia; discriminate. }
  assert (Hfit : Forall (fun step => config_fits_c_int (fst step)
                                     /\ is_extend (snd step) = false)
                        eight_sessions).
  { unfold eight_sessions. simpl.
    repeat constructor; simpl; lia. }
  exact (proj2 (proj2 (proj2 (proj2 (remaining_seconds_never_negative
                                       eight_sessions Hwf))) Hfit)).
Defined.

(** ** How long a phase lasts *)

Lemma ticks_snoc (cfg : Config) (j : nat) :
  ticks cfg (S j) = ticks cfg j ++ [(cfg, Tick)].
Proof. unfold ticks. apply (repeat_cons j (cfg, Tick)). Qed.

(** Fewer ticks than seconds left: the countdown goes on. *)
Lemma countdown_ticks (cfg : Config) (cs ps : TimerState) (n : Z) (j : nat) :
  forall r : Z,
    counting_down cs = true -> Z.of_nat j < r ->
    exec_run (mkTimer cs ps r n true) (ticks cfg j)
    = mkTimer cs ps (r - Z.of_nat j) n true /\
    completions (run_trace (mkTimer cs ps r n true) (ticks cfg j)) = [].
Proof.
  induction j as [| j IH]; intros r Hcs Hj.
  - simpl. split; [f_equal; lia | reflexivity].
  - assert (Hstep : perform cfg Tick (mkTimer cs ps r n true)
                    = mkRan (Returned tt) (mkTimer cs ps (r - 1) n true)
                        [Emit (time_changed (to_c_int (r - 1)))]).
    { py_unfold. assert (E : (r - 1 <=? 0) = false) by (apply Z.leb_gt; lia).
      rewrite E. reflexivity. }
    change (ticks cfg (S j)) with ((cfg, Tick) :: ticks cfg j).
    cbn [exec_run run_trace]. rewrite Hstep. cbn [self_after trace].
    destruct (IH (r - 1) Hcs) as [IH1 IH2]; [lia |].
    rewrite IH1. split; [f_equal; lia |].
    rewrite completions_app, IH2. reflexivity.
Qed.

(** A timeout of the running [QTimer] is the slot [_tick]. *)
Lemma tick_when_active (cfg : Config) (self : PomodoroTimer) :
  qt_timer_active self = true -> perform cfg Tick self = Core._tick cfg self.
Proof.
  intros H. unfold perform, bind, get. rewrite H.
  destruct (Core._tick cfg self) as [[u | e] s t]; reflexivity.
Qed.

(** As many ticks as seconds left: the last one exhausts the countdown. *)
Lemma phase_lasts (cfg : Config) (cs ps : TimerState) (n r : Z) :
  counting_down cs = true -> 1 <= r ->
  exec_run (mkTimer cs ps r n true) (ticks cfg (Z.to_nat r))
  = self_after (Core._tick cfg (mkTimer cs ps 1 n true)) /\
  completions (run_trace (mkTimer cs ps r n true) (ticks cfg (Z.to_nat r)))
  = completions (trace (Core._tick cfg (mkTimer cs ps 1 n true))).
Proof.
  intros Hcs Hr.
  replace (Z.to_nat r) with (S (Z.to_nat (r - 1))) by lia.
  rewrite ticks_snoc, exec_run_app, run_trace_app, completions_app.
  destruct (countdown_ticks cfg cs ps n (Z.to_nat (r - 1)) r Hcs) as [H1 H2];
    [lia |].
  rewrite H1, H2. replace (r - Z.of_nat (Z.to_nat (r - 1))) with 1 by lia.
  cbn [exec_run run_trace app]. rewrite app_nil_r.
  rewrite tick_when_active by reflexivity. split; reflexivity.
Qed.

(** A WORK countdown of [w >= 1] seconds ends on its tick number [w], in
    the break the rule chooses. *)
Lemma work_phase_ends (cfg : Config) (ps : TimerState) (n w : Z) :
  config_ok cfg -> 1 <= w ->
  let b := break_kind cfg n in
  exec_run (mkTimer WORK ps w n true) (ticks cfg (Z.to_nat w))
  = mkTimer b ps (break_duration cfg b) (n + 1) true /\
  completions (run_trace (mkTimer WORK ps w n true) (ticks cfg (Z.to_nat w)))
  = [WORK].
Proof.
  intros Hok Hw b.
  assert (Hwork : Core._tick cfg (mkTimer WORK ps 1 n true)
                  = mkRan (Returned tt)
                      (mkTimer b ps (break_duration cfg b) (n + 1) true)
                      [Emit (time_changed 0); Emit (session_completed WORK);
                       Enter CmdStartBreak; Emit (state_changed b);
                       Emit (time_changed (to_c_int (break_duration cfg b)))]).
  { rewrite <- (tick_when_active cfg (mkTimer WORK ps 1 n true) eq_refl).
    rewrite (tick_completes_work cfg (mkTimer WORK ps 1 n true) Hok eq_refl).
    reflexivity. }
  destruct (phase_lasts cfg WORK ps n w eq_refl Hw) as [P1 P2].
  rewrite Hwork in P1, P2. cbn [self_after trace] in P1, P2.
  split; [exact P1 |]. rewrite P2.
  pose proof (break_kind_is_break cfg n) as Hb. fold b in Hb.
  destruct b; try discriminate Hb; reflexivity.
Qed.

(** X9.  One whole pomodoro under a well-formed configuration.  From IDLE,
    [start_work_session()] followed by fewer than [work_duration_seconds]
    ticks is still in WORK with that many seconds gone; the tick number
    [work_duration_seconds] starts the break chosen by the break-kind rule
    with its configured duration and increments [current_session]; the break
    lasts exactly its duration in ticks and ends in IDLE with
    [remaining_seconds = 0].  The run emits [session_completed] twice: WORK,
    then the break. *)
Theorem pomodoro_cycle (cfg : Config) (self : PomodoroTimer) :
  config_wf cfg ->
  current_state self = IDLE ->
  let w := work_duration_seconds cfg in
  let b := break_kind cfg (current_session self) in
  let d := break_duration cfg b in
  let started := self_after (Core.start_work_session cfg self) in
  let working := ticks cfg (Z.to_nat w) in
  let resting := ticks cfg (Z.to_nat d) in
  (forall j : nat, Z.of_nat j < w ->
     exec_run started (ticks cfg j)
     = mkTimer WORK (previous_state self) (w - Z.of_nat j)
               (current_session self) true) /\
  exec_run started working
  = mkTimer b (previous_state self) d (current_session self + 1) true /\
  (forall j : nat, Z.of_nat j < d ->
     exec_run started (working ++ ticks cfg j)
     = mkTimer b (previous_state self) (d - Z.of_nat j)
               (current_session self + 1) true) /\
  exec_run self ((cfg, Call CmdStartWorkSession) :: working ++ resting)
  = mkTimer IDLE (previous_state self) 0 (current_session self + 1) false /\
  completions (run_trace self ((cfg, Call CmdStartWorkSession)
                               :: working ++ resting)) = [WORK; b].
Proof.
  destruct self as [cs ps r n q]. fields. intros Hwf ->.
  assert (Hok : config_ok cfg) by apply Hwf.
  destruct Hwf as (Hw & Hs & Hl & _).
  set (w := work_duration_seconds cfg).
  set (b := break_kind cfg n).
  set (d := break_duration cfg b).
  assert (Hb : is_break b = true) by apply break_kind_is_break.
  assert (Hbc : counting_down b = true) by (destruct b; try discriminate Hb; reflexivity).
  assert (Hd : 1 <= d) by (unfold d, break_duration; destruct b; assumption).
  assert (Hstart : Core.start_work_session cfg (mkTimer IDLE ps r n q)
                   = mkRan (Returned tt) (mkTimer WORK ps w n true)
                       [Enter CmdStartWorkSession; Emit (state_changed WORK);
                        Emit (time_changed (to_c_int w))]) by reflexivity.
  rewrite Hstart. cbn [self_after].
  assert (Hrest : Core._tick cfg (mkTimer b ps 1 (n + 1) true)
                  = mkRan (Returned tt) (mkTimer IDLE ps 0 (n + 1) false)
                      [Emit (time_changed 0); Emit (state_changed IDLE);
                       Emit (session_completed b)]).
  { destruct b; try discriminate Hb; reflexivity. }
  destruct (work_phase_ends cfg ps n w Hok Hw) as [Pw1 Pw2].
  cbv zeta in Pw1, Pw2. fold b in Pw1. fold d in Pw1.
  destruct (phase_lasts cfg b ps (n + 1) d Hbc Hd) as [Pd1 Pd2].
  rewrite Hrest in Pd1, Pd2.
  cbn [self_after trace] in Pd1, Pd2.
  split; [| split; [| split; [| split]]].
  - intros j Hj. apply (countdown_ticks cfg WORK ps n j w eq_refl Hj).
  - exact Pw1.
  - intros j Hj. rewrite exec_run_app, Pw1.
    apply (countdown_ticks cfg b ps (n + 1) j d Hbc Hj).
  - cbn [exec_run]. change (perform cfg (Call CmdStartWorkSession))
      with (Core.start_work_session cfg).
    rewrite Hstart. cbn [self_after].
    rewrite exec_run_app, Pw1. exact Pd1.
  - cbn [run_trace]. change (perform cfg (Call CmdStartWorkSession))
      with (Core.start_work_session cfg).
    rewrite Hstart. cbn [self_after trace].
    rewrite completions_app, run_trace_app, completions_app, Pw1, Pw2, Pd2.
    destruct b; try discriminate Hb; reflexivity.
Qed.

Lemma pomodoro_cycle_witness :
  let cfg := mkConfig 3 2 4 4 in
  exec_run init ((cfg, Call CmdStartWorkSession) :: ticks cfg 3 ++ ticks cfg 2)
  = mkTimer IDLE IDLE 0 2 false.
Proof.
  assert (Hwf : config_wf (mkConfig 3 2 4 4))
    by (unfold config_wf; simpl; repeat split; lia).
  destruct (pomodoro_cycle (mkConfig 3 2 4 4) init Hwf eq_refl)
    as (_ & _ & _ & H & _).
  exact H.
Defined.

(** X10.  [extend_break] on a running break with [r >= 1] seconds left
    adds exactly 300 seconds and emits [time_changed] once, changing nothing
    else.  The signal delivers [r + 300] as a C [int], which is [r + 300]
    itself when it is at most 2^31 - 1.  The break then goes on for exactly
    [r + 300] more ticks and ends in IDLE on the last of them. *)
Theorem extended_break_lasts (cfg : Config) (self : PomodoroTimer) :
  is_break (current_state self) = true ->
  qt_timer_active self = true ->
  1 <= remaining_seconds self ->
  let r := remaining_seconds self in
  let e := extend_break self in
  outcome e = Returned tt /\
  signals (trace e) = [time_changed (to_c_int (r + 300))] /\
  (in_c_int (r + 300) -> signals (trace e) = [time_changed (r + 300)]) /\
  self_after e = mkTimer (current_state self) (previous_state self) (r + 300)
                         (current_session self) true /\
  (forall j : nat, Z.of_nat j < r + 300 ->
     exec_run (self_after e) (ticks cfg j)
     = mkTimer (current_state self) (previous_state self)
               (r + 300 - Z.of_nat j) (current_session self) true) /\
  exec_run (self_after e) (ticks cfg (Z.to_nat (r + 300)))
  = mkTimer IDLE (previous_state self) 0 (current_session self) false.
Proof.
  destruct self as [cs ps r n q]. fields. intros Hb -> Hr.
  assert (Hc : counting_down cs = true) by (destruct cs; try discriminate Hb; reflexivity).
  assert (He : extend_break (mkTimer cs ps r n true)
               = mkRan (Returned tt) (mkTimer cs ps (r + 300) n true)
                   [Log INFO "Break extended by 5 minutes";
                    Emit (time_changed (to_c_int (r + 300)))]) by reflexivity.
  rewrite He. cbn [outcome self_after trace].
  split; [reflexivity |]. split; [reflexivity |].
  split; [intros Hfit; unfold in_c_int in Hfit; unfold signals;
          cbn [flat_map app];
          rewrite (to_c_int_in_range (r + 300)) by lia; reflexivity |].
  split; [reflexivity |]. split.
  - intros j Hj. apply (countdown_ticks cfg cs ps n j (r + 300) Hc Hj).
  - destruct (phase_lasts cfg cs ps n (r + 300) Hc) as [P _]; [lia |].
    rewrite P. destruct cs; try discriminate Hb; reflexivity.
Qed.

Lemma extended_break_lasts_witness :
  let cfg := mkConfig 1500 300 900 4 in
  exec_run (self_after (extend_break (mkTimer SHORT_BREAK IDLE 2 2 true)))
           (ticks cfg 302)
  = mkTimer IDLE IDLE 0 2 false.
Proof.
  assert (Hr : 1 <= remaining_seconds (mkTimer SHORT_BREAK IDLE 2 2 true))
    by (simpl; lia).
  destruct (extended_break_lasts (mkConfig 1500 300 900 4)
              (mkTimer SHORT_BREAK IDLE 2 2 true) eq_refl eq_refl Hr)
    as (_ & _ & _ & _ & _ & H).
  exact H.
Defined.

(** ** The controller's queries *)

(** X11.  The button states agree with what the controller does.  The
    start button is enabled exactly when [start_or_resume()] enters a core
    command and is labelled Resume exactly when that command is [resume()];
    the pause button likewise for [pause_or_resume()].  [can_start] and
    [can_pause] are the two enabled flags, [is_running] is the negation of
    [can_start], and an active break is running. *)
Theorem buttons_agree_with_dispatch (cfg : Config) (self : PomodoroTimer) :
  let start_cmds := entered (trace (Controller.start_or_resume cfg self)) in
  let pause_cmds := entered (trace (Controller.pause_or_resume self)) in
  Queries.get_start_button_state self =
    match start_cmds with
    | [CmdResume] => (true, "Resume"%string)
    | [] => (false, "Start"%string)
    | _ => (true, "Start"%string)
    end /\
  Queries.get_pause_button_state self =
    match pause_cmds with
    | [CmdResume] => (true, "Resume"%string)
    | [] => (false, "Pause"%string)
    | _ => (true, "Pause"%string)
    end /\
  Queries.can_start self = fst (Queries.get_start_button_state self) /\
  Queries.can_pause self = fst (Queries.get_pause_button_state self) /\
  Queries.is_running self = negb (Queries.can_start self) /\
  (Queries.is_break_active self = true -> Queries.is_running self = true).
Proof.
  destruct self as [cs ps r n q].
  destruct cs, ps; repeat split; intros H; try discriminate H; reflexivity.
Qed.

Lemma buttons_agree_with_dispatch_witness :
  Queries.is_running (mkTimer SHORT_BREAK IDLE 10 2 true) = true.
Proof.
  destruct (buttons_agree_with_dispatch (mkConfig 1500 300 900 4)
              (mkTimer SHORT_BREAK IDLE 10 2 true)) as (_ & _ & _ & _ & _ & H).
  exact (H eq_refl).
Defined.

(** X12.  In every reachable state where the pause button is enabled,
    [pause_or_resume()] flips [is_running], and a second [pause_or_resume()]
    restores [current_state], [remaining_seconds] and [current_session];
    the [QTimer] is then active exactly if the timer was running before. *)
Theorem pause_or_resume_toggles (self : PomodoroTimer) :
  reachable self ->
  Queries.can_pause self = true ->
  let once := self_after (Controller.pause_or_resume self) in
  let twice := self_after (Controller.pause_or_resume once) in
  Queries.is_running once = negb (Queries.is_running self) /\
  Queries.can_pause once = true /\
  current_state twice = current_state self /\
  remaining_seconds twice = remaining_seconds self /\
  current_session twice = current_session self /\
  qt_timer_active twice = Queries.is_running self.
Proof.
  intros Hreach Hcan.
  pose proof (reachable_paused_remembers _ Hreach) as Hp.
  pose proof (reachable_timer_only_counting _ Hreach) as [Hq _].
  unfold paused_remembers in Hp.
  destruct self as [cs ps r n q]. revert Hp Hq. fields. intros Hp Hq.
  destruct cs, ps; try discriminate Hcan;
    try (specialize (Hp eq_refl); discriminate Hp);
    destruct q; try (specialize (Hq eq_refl); discriminate Hq);
    repeat split.
Qed.

Lemma pause_or_resume_toggles_witness :
  let cfg := mkConfig 1500 300 900 4 in
  let self := exec_run init [(cfg, StartOrResume); (cfg, Tick)] in
  remaining_seconds
    (self_after (Controller.pause_or_resume
                   (self_after (Controller.pause_or_resume self)))) = 1499.
Proof.
  set (cfg := mkConfig 1500 300 900 4).
  assert (Hreach : reachable (exec_run init [(cfg, StartOrResume); (cfg, Tick)]))
    by (apply exec_run_reachable, reachable_init).
  destruct (pause_or_resume_toggles _ Hreach eq_refl) as (_ & _ & _ & H & _).
  exact H.
Defined.

(** X13.  In every reachable state where the start button is enabled,
    [start_or_resume()] returns normally with a countdown running: the start
    button becomes disabled, the pause button reads Pause,
    [current_session] is unchanged, and a resumed countdown continues from
    the [remaining_seconds] it was paused at. *)
Theorem start_or_resume_runs (cfg : Config) (self : PomodoroTimer) :
  reachable self ->
  Queries.can_start self = true ->
  let r := Controller.start_or_resume cfg self in
  outcome r = Returned tt /\
  Queries.is_running (self_after r) = true /\
  qt_timer_active (self_after r) = true /\
  Queries.get_start_button_state (self_after r) = (false, "Start"%string) /\
  Queries.get_pause_button_state (self_after r) = (true, "Pause"%string) /\
  current_session (self_after r) = current_session self /\
  (current_state self = PAUSED ->
   remaining_seconds (self_after r) = remaining_seconds self).
Proof.
  intros Hreach Hcan.
  pose proof (reachable_paused_remembers _ Hreach) as Hp.
  unfold paused_remembers in Hp.
  destruct self as [cs ps r n q]. revert Hp. fields. intros Hp.
  destruct cs, ps; try discriminate Hcan;
    try (specialize (Hp eq_refl); discriminate Hp);
    repeat split; intros H; discriminate H.
Qed.

Lemma start_or_resume_runs_witness :
  Queries.is_running
    (self_after (Controller.start_or_resume (mkConfig 1500 300 900 4) init))
  = true.
Proof.
  destruct (start_or_resume_runs (mkConfig 1500 300 900 4) init
              reachable_init eq_refl) as (_ & H & _).
  exact H.
Defined.

(** ** The sounds requested by the application *)

(** X14.  The sounds the application requests for an action, through
    the slots connected to [state_changed] and [session_completed]: the
    completion sound of the phase that ended (SESSION_COMPLETE for WORK,
    TIMER_FINISH for a break) if the action exhausted a countdown, followed
    by the start sound of the new state (WORK_START or BREAK_START) if the
    state changed to WORK or to a break.  Pausing, resetting and extending a
    break request no sound. *)
Theorem sounds_of_action (cfg : Config) (a : Action) (self : PomodoroTimer) :
  let r := perform cfg a self in
  let s' := current_state (self_after r) in
  App.sounds_requested (trace r) =
    (if completes_phase self a
     then if TimerState_eqb (current_state self) WORK
          then [App.SESSION_COMPLETE] else [App.TIMER_FINISH]
     else [])
    ++ (if TimerState_eqb s' (current_state self) then []
        else if TimerState_eqb s' WORK then [App.WORK_START]
        else if is_break s' then [App.BREAK_START]
        else []) /\
  (In a [Call CmdPause; Call CmdReset; ControllerReset; ExtendBreak] ->
   App.sounds_requested (trace r) = []).
Proof.
  destruct self as [cs ps r n q]. unfold completes_phase.
  split.
  - destruct a as [c | | | | |]; [destruct c | ..];
      destruct cs, ps; py_unfold; split_atomic_ifs; reflexivity.
  - simpl. intros [<- | [<- | [<- | [<- | []]]]];
      destruct cs, ps; reflexivity.
Qed.

Lemma sounds_of_action_witness :
  App.sounds_requested
    (trace (perform (mkConfig 1500 300 900 4) (Call CmdPause)
                    (mkTimer WORK IDLE 10 1 true))) = [].
Proof.
  assert (Hin : In (Call CmdPause)
                  [Call CmdPause; Call CmdReset; ControllerReset; ExtendBreak])
    by (simpl; auto).
  exact (proj2 (sounds_of_action (mkConfig 1500 300 900 4) (Call CmdPause)
                  (mkTimer WORK IDLE 10 1 true)) Hin).
Defined.

(** ** User activity *)

(** X15.  [_on_user_activity] starts a WORK session with the
    configured duration when the timer is IDLE and does nothing, not even a
    call of the core, in any other state.  Starting emits
    [state_changed(WORK)] and then [time_changed], which delivers the
    configured duration as a C [int]: the duration itself when it lies
    between -2^31 and 2^31 - 1.  In particular [_on_user_activity] starts
    the next WORK session once a break has run out, with [current_session]
    unchanged. *)
Theorem user_activity_restarts_work (cfg : Config) (self : PomodoroTimer) :
  (current_state self <> IDLE ->
   App._on_user_activity cfg self = mkRan (Returned tt) self []) /\
  (current_state self = IDLE ->
   let r := App._on_user_activity cfg self in
   outcome r = Returned tt /\
   self_after r = mkTimer WORK (previous_state self) (work_duration_seconds cfg)
                          (current_session self) true /\
   signals (trace r) = [state_changed WORK;
                        time_changed (to_c_int (work_duration_seconds cfg))] /\
   (in_c_int (work_duration_seconds cfg) ->
    signals (trace r) = [state_changed WORK;
                         time_changed (work_duration_seconds cfg)])) /\
  (is_break (current_state self) = true -> remaining_seconds self = 1 ->
   let ended := self_after (Core._tick cfg self) in
   self_after (App._on_user_activity cfg ended)
   = mkTimer WORK (previous_state self) (work_duration_seconds cfg)
             (current_session self) true).
Proof.
  destruct self as [cs ps r n q]. fields.
  split; [| split].
  - intros H. destruct cs; try reflexivity. elim H. reflexivity.
  - intros ->. split; [reflexivity |]. split; [reflexivity |].
    split; [reflexivity |].
    intros Hfit. unfold in_c_int in Hfit.
    change (signals (trace (App._on_user_activity cfg (mkTimer IDLE ps r n q))))
      with [state_changed WORK;
            time_changed (to_c_int (work_duration_seconds cfg))].
    rewrite (to_c_int_in_range (work_duration_seconds cfg)) by lia.
    reflexivity.
  - intros Hb ->. destruct cs; try discriminate Hb; reflexivity.
Qed.

Lemma user_activity_restarts_work_witness :
  current_state
    (self_after (App._on_user_activity (mkConfig 1500 300 900 4)
                   (self_after (Core._tick (mkConfig 1500 300 900 4)
                                  (mkTimer LONG_BREAK IDLE 1 5 true)))))
  = WORK.
Proof.
  destruct (user_activity_restarts_work (mkConfig 1500 300 900 4)
              (mkTimer LONG_BREAK IDLE 1 5 true)) as (_ & _ & H).
  exact (f_equal current_state (H eq_refl eq_refl)).
Defined.

(** ** The tray icon *)

Lemma within_total_step (cfg : Config) (a : Action) (self : PomodoroTimer) :
  config_wf cfg -> is_extend a = false ->
  healthy self -> within_total cfg self ->
  within_total cfg (self_after (perform cfg a self)).
Proof.
  unfold config_wf, healthy, within_total, icon_total,
    Tray.get_total_seconds_for_state.
  destruct self as [cs ps r n q]. fields.
  intros (Hw & Hs & Hl & HN) Hext (H0 & H1 & Hq & Hp) Hin.
  destruct a as [c | | | | |]; [destruct c | ..]; try discriminate Hext;
    destruct cs, ps;
    try (specialize (Hp eq_refl); discriminate Hp);
    simpl in Hq; subst q; simpl in Hin;
    try (assert (1 <= r) by (apply H1; discriminate));
    try (pose proof (Hin _ eq_refl));
    py_unfold; split_atomic_ifs; bool_facts; try contradiction;
    intros total Ht; try discriminate Ht;
    injection Ht as <-; simpl; lia.
Qed.

(** X16.  Along every run from the initial state under one well-formed
    configuration and without break extensions, the progress drawn on the
    tray icon is a proper fraction: the total of the phase is positive (also
    while PAUSED, where it is taken from [previous_state]) and the elapsed
    time [total - remaining_seconds] lies between 0 and the total. *)
Theorem tray_progress_in_range (cfg : Config) (run : Run) :
  config_wf cfg ->
  Forall (fun step => fst step = cfg /\ is_extend (snd step) = false) run ->
  let self := exec_run init run in
  forall total : Z,
    icon_total cfg self = Some total ->
    0 < total /\ 0 <= total - remaining_seconds self <= total.
Proof.
  intros Hwf Hrun.
  assert (Hgen : forall self, healthy self -> within_total cfg self ->
                 healthy (exec_run self run)
                 /\ within_total cfg (exec_run self run)).
  { induction Hrun as [| [cfg' a] rest [Hc Ha] _ IH]; intros self Hh Hin.
    - split; assumption.
    - simpl in Hc, Ha. subst cfg'. cbn [exec_run]. apply IH.
      + apply (healthy_step cfg a self Hwf Hh).
      + apply within_total_step; assumption. }
  assert (Hinit : healthy init).
  { unfold healthy. simpl. repeat split; try lia.
    - intros F. elim F. reflexivity.
    - intros F. discriminate F. }
  assert (Hinit' : within_total cfg init) by (intros t Ht; discriminate Ht).
  destruct (Hgen init Hinit Hinit') as [(H0 & H1 & _ & Hp) Hin].
  intros self total Ht. fold self in H0, H1, Hp, Hin.
  specialize (Hin total Ht).
  assert (Hpos : 0 < total).
  { destruct Hwf as (Hw & Hs & Hl & _).
    unfold icon_total, Tray.get_total_seconds_for_state in Ht.
    destruct (current_state self); try discriminate Ht;
      try (injection Ht as <-; lia).
    specialize (Hp eq_refl).
    destruct (previous_state self); try discriminate Hp;
      injection Ht as <-; simpl; lia. }
  split; [exact Hpos | lia].
Qed.

Lemma tray_progress_in_range_witness :
  let cfg := mkConfig 1500 300 900 4 in
  let self := exec_run init [(cfg, StartOrResume); (cfg, Tick); (cfg, PauseOrResume)] in
  0 <= 1500 - remaining_seconds self <= 1500.
Proof.
  assert (Hwf : config_wf (mkConfig 1500 300 900 4))
    by (unfold config_wf; simpl; repeat split; lia).
  refine (proj2 (tray_progress_in_range (mkConfig 1500 300 900 4)
                   [(mkConfig 1500 300 900 4, StartOrResume);
                    (mkConfig 1500 300 900 4, Tick);
                    (mkConfig 1500 300 900 4, PauseOrResume)] Hwf _ 1500 eq_refl)).
  repeat constructor.
Defined.

(** With an extension the bound is lost: five minutes added to a fresh
    short break put the countdown above the configured duration. *)
Example extended_break_exceeds_total :
  let cfg := mkConfig 1500 300 900 4 in
  let self := self_after (extend_break (mkTimer SHORT_BREAK IDLE 300 2 true)) in
  icon_total cfg self = Some 300 /\ 300 - remaining_seconds self = -300.
Proof. split; reflexivity. Qed.

Lemma int_of_field_str_nonneg (n : Z) :
  0 <= n -> Display.int_of_field (Display.str_nonneg n) = Some n.
Proof.
  intros Hn. pose proof (DisplayFacts.read_str_nonneg n Hn) as Hread.
  pose proof (DisplayFacts.length_digits_pos (Z.to_nat (Z.log2 n)) n) as Hlen.
  unfold Display.int_of_field. fold (Display.str_nonneg n) in Hlen.
  destruct (Display.str_nonneg n); [simpl in Hlen; lia | exact Hread].
Qed.



(** ** The main window *)



(** ** Configurations *)





(** X20.  The configuration built in test mode never has
    [sessions_until_long_break = 0]: a count of 0 on the command line is
    treated as absent and the default 4 is used, any other count is taken as
    given.  So no action raises under it.  The work duration is the one
    given, and absent break durations default to 300 and 900 seconds. *)
Theorem test_config_never_divides_by_zero (work_seconds : Z)
    (short_break_seconds sessions long_break_seconds : option Z)
    (a : Action) (self : PomodoroTimer) :
  let cfg := Main.test_config work_seconds short_break_seconds sessions
                              long_break_seconds in
  config_ok cfg /\
  outcome (perform cfg a self) = Returned tt /\
  work_duration_seconds cfg = work_seconds /\
  (short_break_seconds = None -> short_break_duration_seconds cfg = 300) /\
  (long_break_seconds = None -> long_break_duration_seconds cfg = 900) /\
  (sessions = None \/ sessions = Some 0 -> sessions_until_long_break cfg = 4) /\
  (forall n, sessions = Some n -> n <> 0 -> sessions_until_long_break cfg = n).
Proof.
  cbv zeta.
  assert (Hok : config_ok (Main.test_config work_seconds short_break_seconds
                             sessions long_break_seconds)).
  { unfold config_ok, Main.test_config, InMemoryConfig.__init__.
    cbn [sessions_until_long_break].
    destruct sessions as [n |]; [| intros H; vm_compute in H; discriminate H].
    destruct (n =? 0) eqn:E; [intros H; vm_compute in H; discriminate H |].
    bool_facts. exact E. }
  split; [exact Hok |].
  split; [apply no_raise_under_config_ok; exact Hok |].
  repeat split.
  - intros ->. reflexivity.
  - intros ->. reflexivity.
  - intros [-> | ->]; reflexivity.
  - intros n -> Hn. unfold Main.test_config, InMemoryConfig.__init__. simpl.
    apply Z.eqb_neq in Hn. rewrite Hn. reflexivity.
Qed.

Lemma test_config_never_divides_by_zero_witness :
  sessions_until_long_break (Main.test_config 15 None (Some 0) None) = 4.
Proof.
  destruct (test_config_never_divides_by_zero 15 None (Some 0) None Tick init)
    as (_ & _ & _ & _ & _ & H & _).
  apply H. right. reflexivity.
Defined.

(** X21.  The minutes properties of an in-memory configuration are
    never below 1; setting one to [v] and reading it back gives
    [max(1, v)]; a work duration under two minutes reads as 1 minute, and in
    general the minutes are the seconds floored to whole minutes, at least
    one. *)
Theorem in_memory_minutes (c : Config) (v : Z) :
  1 <= InMemoryConfig.work_duration c /\
  1 <= InMemoryConfig.short_break_duration c /\
  1 <= InMemoryConfig.long_break_duration c /\
  InMemoryConfig.work_duration (InMemoryConfig.set_work_duration v c)
    = Z.max 1 v /\
  InMemoryConfig.short_break_duration (InMemoryConfig.set_short_break_duration v c)
    = Z.max 1 v /\
  InMemoryConfig.long_break_duration (InMemoryConfig.set_long_break_duration v c)
    = Z.max 1 v /\
  (work_duration_seconds c < 120 -> InMemoryConfig.work_duration c = 1) /\
  (0 <= work_duration_seconds c ->
   60 * InMemoryConfig.work_duration c <= Z.max 60 (work_duration_seconds c)
   /\ Z.max 60 (work_duration_seconds c) < 60 * InMemoryConfig.work_duration c + 60).
Proof.
  unfold InMemoryConfig.work_duration, InMemoryConfig.short_break_duration,
    InMemoryConfig.long_break_duration, InMemoryConfig.set_work_duration,
    InMemoryConfig.set_short_break_duration,
    InMemoryConfig.set_long_break_duration.
  destruct c as [w s l n].
  cbn [work_duration_seconds short_break_duration_seconds
       long_break_duration_seconds sessions_until_long_break].
  rewrite !Z.div_mul by lia.
  pose proof (Z.div_mod w 60 ltac:(lia)) as Hdm.
  pose proof (Z.mod_pos_bound w 60 ltac:(lia)) as Hmod.
  do 6 (split; [lia |]).
  split; intros Hw; [lia | split; lia].
Qed.

Lemma in_memory_minutes_witness :
  InMemoryConfig.work_duration (Main.test_config 15 (Some 5) (Some 4) (Some 10)) = 1.
Proof.
  destruct (in_memory_minutes (Main.test_config 15 (Some 5) (Some 4) (Some 10)) 0)
    as (_ & _ & _ & _ & _ & _ & H & _).
  apply H. simpl. lia.
Defined.

(** X22.  Accepting the settings dialog without editing it.  On an
    in-memory configuration the result is always well-formed, and is the
    view of a configuration that passes the bounds of the model; accepting
    again changes nothing more.  On a persistent configuration the result
    always passes the bounds, and a configuration that already passes them
    is left exactly as it was. *)
Theorem settings_accept_well_formed (c : Config) (p : Models.PomodoroConfig) :
  let c' := Settings.save_and_accept (Settings.load_settings c) c in
  let p' := Settings.save_and_accept_persistent
              (Settings.load_settings_persistent p) in
  config_wf c' /\
  (exists q, Models.validates q = true /\ c' = PersistentConfig.view q) /\
  Settings.save_and_accept (Settings.load_settings c') c' = c' /\
  Models.validates p' = true /\
  (Models.validates p = true -> p' = p) /\
  (Models.validates p = true ->
   Settings.save_and_accept (Settings.load_settings (PersistentConfig.view p))
                            (PersistentConfig.view p)
   = PersistentConfig.view p).
Proof.
  destruct c as [w s l n]. destruct p as [pw ps pl pn].
  unfold Settings.save_and_accept, Settings.load_settings,
    Settings.save_and_accept_persistent, Settings.load_settings_persistent,
    Settings.spin, InMemoryConfig.work_duration,
    InMemoryConfig.short_break_duration, InMemoryConfig.long_break_duration,
    InMemoryConfig.set_work_duration, InMemoryConfig.set_short_break_duration,
    InMemoryConfig.set_long_break_duration,
    InMemoryConfig.set_sessions_until_long_break, PersistentConfig.view,
    Models.validates, config_wf.
  cbn [work_duration_seconds short_break_duration_seconds
       long_break_duration_seconds sessions_until_long_break
       Models.work_duration Models.short_break_duration
       Models.long_break_duration Models.sessions].
  rewrite !Z.div_mul by lia.
  split; [repeat split; lia |].
  split.
  { exists (Models.mkPomodoroConfig
              (Z.max 1 (Z.min 120 (Z.max 1 (w / 60))))
              (Z.max 1 (Z.min 60 (Z.max 1 (s / 60))))
              (Z.max 5 (Z.min 120 (Z.max 1 (l / 60))))
              (Z.max 2 (Z.min 10 n))).
    cbn [Models.work_duration Models.short_break_duration
         Models.long_break_duration Models.sessions].
    split; [| reflexivity].
    repeat (apply andb_true_iff; split); apply Z.leb_le; lia. }
  split; [f_equal; lia |].
  split; [repeat (apply andb_true_iff; split); apply Z.leb_le; lia |].
  split.
  - intros H. repeat (apply andb_true_iff in H; destruct H as [H ?]).
    bool_facts. f_equal; lia.
  - intros H. repeat (apply andb_true_iff in H; destruct H as [H ?]).
    bool_facts. f_equal; lia.
Qed.

Lemma settings_accept_well_formed_witness :
  Settings.save_and_accept_persistent
    (Settings.load_settings_persistent Models.defaults) = Models.defaults.
Proof.
  destruct (settings_accept_well_formed (mkConfig 15 5 10 4) Models.defaults)
    as (_ & _ & _ & _ & H & _).
  exact (H eq_refl).
Defined.

(** ** Skipping a break *)

(** X23.  [skip_break] returns the timer to its initial attributes
    without emitting [session_completed] and without requesting a sound; the
    session count starts again, so under a well-formed configuration with
    more than one session until a long break the next completed WORK session
    is followed by a short break and [current_session = 2]. *)
Theorem skip_break_restarts_cadence (cfg : Config) (self : PomodoroTimer) :
  config_wf cfg ->
  1 < sessions_until_long_break cfg ->
  let r := Overlay.skip_break self in
  let next := (cfg, Call CmdStartWorkSession)
              :: ticks cfg (Z.to_nat (work_duration_seconds cfg)) in
  outcome r = Returned tt /\
  self_after r = init /\
  completions (trace r) = [] /\
  App.sounds_requested (trace r) = [] /\
  exec_run (self_after r) next
  = mkTimer SHORT_BREAK IDLE (short_break_duration_seconds cfg) 2 true.
Proof.
  intros Hwf HN.
  assert (Hskip : self_after (Overlay.skip_break self) = init
                  /\ outcome (Overlay.skip_break self) = Returned tt
                  /\ completions (trace (Overlay.skip_break self)) = []
                  /\ App.sounds_requested (trace (Overlay.skip_break self)) = []).
  { destruct self as [cs ps r n q]. destruct cs; repeat split. }
  destruct Hskip as (H1 & H2 & H3 & H4).
  cbv zeta. rewrite H1. repeat split; try assumption.
  assert (Hok : config_ok cfg) by apply Hwf.
  destruct Hwf as (Hw & _).
  destruct (work_phase_ends cfg IDLE 1 (work_duration_seconds cfg) Hok Hw)
    as [Hc _].
  cbv zeta in Hc. cbn [exec_run].
  change (self_after (perform cfg (Call CmdStartWorkSession) init))
    with (mkTimer WORK IDLE (work_duration_seconds cfg) 1 true).
  rewrite Hc.
  assert (Hb : break_kind cfg 1 = SHORT_BREAK).
  { unfold break_kind. rewrite Z.mod_small by lia. reflexivity. }
  rewrite Hb. reflexivity.
Qed.

Lemma skip_break_restarts_cadence_witness :
  exec_run (self_after (Overlay.skip_break (mkTimer LONG_BREAK IDLE 700 5 true)))
           ((mkConfig 2 1 3 4, Call CmdStartWorkSession)
            :: ticks (mkConfig 2 1 3 4) 2)
  = mkTimer SHORT_BREAK IDLE 1 2 true.
Proof.
  assert (Hwf : config_wf (mkConfig 2 1 3 4))
    by (unfold config_wf; simpl; repeat split; lia).
  assert (HN : 1 < sessions_until_long_break (mkConfig 2 1 3 4))
    by (simpl; lia).
  destruct (skip_break_restarts_cadence (mkConfig 2 1 3 4)
              (mkTimer LONG_BREAK IDLE 700 5 true) Hwf HN)
    as (_ & _ & _ & _ & H).
  exact H.
Defined.

(** ** The display of a negative countdown *)

(** X24.  For [remaining_seconds < 0] the display is a minus sign, the
    minutes, a colon and two digits of seconds, where the minutes are the
    floor of [remaining_seconds / 60] in absolute value (at least 1) and the
    seconds are [remaining_seconds mod 60], between 00 and 59: one second
    below zero shows as -1:59. *)
Theorem get_time_display_negative (self : PomodoroTimer) :
  remaining_seconds self < 0 ->
  let r := remaining_seconds self in
  exists mm ss : string,
    Display.get_time_display self
      = String "-"%char (mm ++ ":" ++ ss)%string /\
    Display.int_of_field mm = Some (- (r / 60)) /\
    1 <= - (r / 60) /\
    Display.int_of_field ss = Some (r mod 60) /\
    String.length ss = 2%nat /\
    r = 60 * (r / 60) + r mod 60.
Proof.
  intros Hr r. fold r in Hr.
  pose proof (Z.div_mod r 60 ltac:(lia)) as Hdm.
  pose proof (Z.mod_pos_bound r 60 ltac:(lia)) as Hmod.
  assert (Hq : r / 60 < 0) by lia.
  destruct (DisplayFacts.format_02d_nonneg (r mod 60) (proj1 Hmod))
    as (Hs1 & _ & Hs3).
  exists (Display.str_nonneg (- (r / 60))), (Display.format_02d (r mod 60)).
  split; [| split; [| split; [| split; [| split]]]].
  - unfold Display.get_time_display. fold r.
    unfold Display.format_02d at 1.
    assert (E : (r / 60 <? 0) = true) by (apply Z.ltb_lt; exact Hq).
    rewrite E.
    pose proof (DisplayFacts.length_digits_pos
                  (Z.to_nat (Z.log2 (- (r / 60)))) (- (r / 60))) as Hlen.
    fold (Display.str_nonneg (- (r / 60))) in Hlen.
    replace (1 - String.length (Display.str_nonneg (- (r / 60))))%nat
      with 0%nat by lia.
    reflexivity.
  - apply int_of_field_str_nonneg. lia.
  - lia.
  - exact Hs1.
  - apply Hs3. lia.
  - exact Hdm.
Qed.

Lemma get_time_display_negative_witness :
  Display.get_time_display (mkTimer WORK IDLE (-1) 1 true) = "-1:59"%string.
Proof.
  assert (H : remaining_seconds (mkTimer WORK IDLE (-1) 1 true) < 0)
    by (simpl; lia).
  destruct (get_time_display_negative _ H) as (mm & ss & E & _).
  reflexivity.
Defined.
